(** * Wcf: the 13-week cash flow forecaster

    A shallow embedding of [CashFlowForecaster] (src/Wcf.py) and the
    properties of its forecast and sensitivity tables.

    Conventions of the embedding.
    - A pandas [Timestamp] is its integer value: nanoseconds since
      1970-01-01T00:00.  Calendar arithmetic (weekday, ISO week, weekly
      period) is done on the proleptic Gregorian ordinal of its day, with
      the algorithms of Python's [datetime].
    - A float is an exact rational or [NaN]: rounding and infinities are
      abstracted away, the missing value that [mean] gives on an empty
      selection and that [pd.isna] tests for is kept.
    - A [KeyError] or [IndexError] raised by the code is an [Err] result.

    Domain.  The embedding follows the code on the inputs on which pandas
    neither leaves its 64-bit ranges nor overflows a sum: timestamps and
    their differences within the int64 nanosecond range (outside it
    [pd.date_range] and the timestamp arithmetic raise), and amounts and
    weekly totals within the 64-bit integer range (outside it an integer
    column wraps and a float column reaches infinity).  The predicates
    [timestamps_in_range], [amounts_in_range] and [balance_in_range] state
    these bounds where a property depends on them. *)

From Stdlib Require Import ZArith QArith List String DecimalString Bool Lia Lqa.
From Stdlib Require Import Permutation.
From Stdlib Require Import Setoid Morphisms.
Import ListNotations.

Local Open Scope Z_scope.

(* ================================================================== *)
(** ** Numbers: rationals extended with NaN *)

Module Num.

Local Open Scope Q_scope.

Inductive num : Type :=
| Fin (q : Q)
| NaN.

Definition isna (x : num) : bool :=
  match x with NaN => true | Fin _ => false end.

Definition lift2 (op : Q -> Q -> Q) (x y : num) : num :=
  match x, y with
  | Fin a, Fin b => Fin (op a b)
  | _, _ => NaN
  end.

Definition nadd : num -> num -> num := lift2 Qplus.
Definition nsub : num -> num -> num := lift2 Qminus.
Definition nmul : num -> num -> num := lift2 Qmult.
(** Division; every divisor in the embedded code is a non-zero literal. *)
Definition ndiv : num -> num -> num := lift2 Qdiv.

(** Numeric equality of two values, NaN being one value. *)
Definition same_num (x y : num) : Prop :=
  match x, y with
  | Fin a, Fin b => a == b
  | NaN, NaN => True
  | _, _ => False
  end.

(** [x <= y] between two finite values; false as soon as one is NaN. *)
Definition nle (x y : num) : Prop :=
  match x, y with
  | Fin a, Fin b => a <= b
  | _, _ => False
  end.

(** [0 < x] for a finite [x]. *)
Definition npos (x : num) : Prop :=
  match x with Fin a => 0 < a | NaN => False end.

Definition sumQ (l : list Q) : Q := fold_right Qplus 0 l.

(** [Series.mean()]: NaN on an empty selection. *)
Definition mean (l : list Q) : num :=
  match l with
  | [] => NaN
  | _ :: _ => Fin (sumQ l / inject_Z (Z.of_nat (List.length l)))
  end.

End Num.
Import Num.

Declare Scope num_scope.
Delimit Scope num_scope with num.
Infix "+" := nadd : num_scope.
Infix "-" := nsub : num_scope.
Infix "*" := nmul : num_scope.
Infix "/" := ndiv : num_scope.
Infix "=~" := same_num (at level 70, no associativity).

(* ================================================================== *)
(** ** Calendar *)

Module Calendar.

Definition Timestamp : Type := Z.

Definition NS_PER_DAY : Z := 86400 * 1000000000.

(** [timedelta(days=d)] and [timedelta(weeks=w)] as nanoseconds. *)
Definition timedelta_days (d : Z) : Z := d * NS_PER_DAY.
Definition timedelta_weeks (w : Z) : Z := timedelta_days (7 * w).

(** [Timedelta.days]: whole days, rounded towards minus infinity. *)
Definition days (delta : Z) : Z := delta / NS_PER_DAY.

(** Ordinal of 1970-01-01 in the proleptic Gregorian calendar
    ([date(1970,1,1).toordinal()]). *)
Definition EPOCH_ORDINAL : Z := 719163.

Definition toordinal (t : Timestamp) : Z := days t + EPOCH_ORDINAL.

(** [weekday()]: Monday is 0, Sunday is 6. *)
Definition weekday (t : Timestamp) : Z := (toordinal t + 6) mod 7.

(** [datetime._days_before_year]. *)
Definition days_before_year (year : Z) : Z :=
  let y := year - 1 in
  y * 365 + y / 4 - y / 100 + y / 400.

(** The year component of [datetime._ord2ymd]. *)
Definition ord2year (n : Z) : Z :=
  let n := n - 1 in
  let n400 := n / 146097 in
  let n := n mod 146097 in
  let n100 := n / 36524 in
  let n := n mod 36524 in
  let n4 := n / 1461 in
  let n := n mod 1461 in
  let n1 := n / 365 in
  let year := n400 * 400 + 1 + n100 * 100 + n4 * 4 + n1 in
  if (n1 =? 4) || (n100 =? 4) then year - 1 else year.

(** [datetime._isoweek1monday]: ordinal of the Monday starting ISO week 1. *)
Definition isoweek1monday (year : Z) : Z :=
  let firstday := days_before_year year + 1 in
  let firstweekday := (firstday + 6) mod 7 in
  let week1monday := firstday - firstweekday in
  if 3 <? firstweekday then week1monday + 7 else week1monday.

(** [isocalendar()[1]] of the day with ordinal [today]. *)
Definition isoweek_of_ordinal (today : Z) : Z :=
  let year := ord2year today in
  let week := (today - isoweek1monday year) / 7 in
  if week <? 0 then
    (today - isoweek1monday (year - 1)) / 7 + 1
  else if (52 <=? week) && (isoweek1monday (year + 1) <=? today) then
    1
  else week + 1.

Definition isoweek (t : Timestamp) : Z := isoweek_of_ordinal (toordinal t).

(** [to_period('W')]: the Monday-to-Sunday week a timestamp falls in,
    identified by the number of whole weeks before it (ordinal 1 is a
    Monday). *)
Definition to_period_W (t : Timestamp) : Z := (toordinal t - 1) / 7.

(** [Week(weekday=0).rollforward]: a timestamp on a Monday is kept, any
    other moves to the next Monday at the same time of day. *)
Definition rollforward_monday (t : Timestamp) : Timestamp :=
  let otherday := weekday t in
  if otherday =? 0 then t
  else t + timedelta_days ((0 - otherday) mod 7).

Fixpoint generate_range (cur : Timestamp) (periods : nat) : list Timestamp :=
  match periods with
  | O => []
  | S n => cur :: generate_range (cur + timedelta_weeks 1) n
  end.

(** [pd.date_range(start=start, periods=periods, freq='W-MON')]. *)
Definition date_range (start : Timestamp) (periods : nat) : list Timestamp :=
  generate_range (rollforward_monday start) periods.

(** Midnight of the day that is [d] days after 1970-01-01. *)
Definition midnight (d : Z) : Timestamp := timedelta_days d.

End Calendar.
Import Calendar.

(* ================================================================== *)
(** ** The forecaster *)

Local Open Scope string_scope.

(** The errors the engine raises. *)
Inductive error : Type :=
| KeyError (key : string)
| IndexError.

Inductive result (A : Type) : Type :=
| Ok (a : A)
| Err (e : error).
Arguments Ok {A} a.
Arguments Err {A} e.

(** A row of the historical table handed to the constructor. *)
Record Transaction : Type := mkTransaction {
  t_date : Timestamp;
  t_category : string;
  t_amount : Q;
  t_payment_terms : string
}.

(** A row of [self.historical]: the input columns and the [week] column
    that [__init__] adds. *)
Record HistRow : Type := mkHistRow {
  date : Timestamp;
  category : string;
  amount : Q;
  payment_terms : string;
  week : Z
}.

(** [self.collection_patterns], keyed 'current', 'week_1' .. 'week_4'. *)
Record CollectionPatterns : Type := mkCollectionPatterns {
  current : Q;
  week_1 : Q;
  week_2 : Q;
  week_3 : Q;
  week_4 : Q
}.

(** [self.payment_patterns]. *)
Record PaymentPatterns : Type := mkPaymentPatterns {
  immediate : list string;
  net_30 : list string;
  net_15 : list string
}.

Record CashFlowForecaster : Type := mkCashFlowForecaster {
  historical : list HistRow;
  collection_patterns : CollectionPatterns;
  payment_patterns : PaymentPatterns
}.

(** [self.historical[self.historical['category'] == c]['amount']]. *)
Definition amounts_of (c : string) (hist : list HistRow) : list Q :=
  map amount (filter (fun r => category r =? c) hist).

Definition _calculate_collection_patterns (hist : list HistRow)
  : CollectionPatterns :=
  let ar_data := filter (fun r => category r =? "AR Collections") hist in
  if (List.length ar_data =? 0)%nat then
    mkCollectionPatterns 0.30 0.40 0.20 0.08 0.02
  else
    mkCollectionPatterns 0.30 0.40 0.20 0.08 0.02.

Definition _calculate_payment_patterns : PaymentPatterns :=
  mkPaymentPatterns
    ["Payroll"; "Rent"; "Utilities"]
    ["Marketing"; "Software"; "Professional Services"]
    ["Supplies"; "Travel"].

(** [__init__]. *)
Definition init (historical_data : list Transaction) : CashFlowForecaster :=
  let hist :=
    map (fun t => mkHistRow (t_date t) (t_category t) (t_amount t)
                            (t_payment_terms t) (to_period_W (t_date t)))
        historical_data in
  mkCashFlowForecaster hist
    (_calculate_collection_patterns hist)
    _calculate_payment_patterns.

(** [Series.min()] of timestamps; [None] is NaT, on an empty column. *)
Definition min_date (ds : list Timestamp) : option Timestamp :=
  match ds with
  | [] => None
  | d :: rest => Some (fold_left Z.min rest d)
  end.

(** [(week_start - self.historical['date'].min()).days / 7]; the day
    count of NaT is NaN. *)
Definition weeks_from_start (self : CashFlowForecaster)
    (week_start : Timestamp) : num :=
  match min_date (map date (historical self)) with
  | None => NaN
  | Some d0 => (Fin (inject_Z (days (week_start - d0))) / Fin 7)%num
  end.

Definition _forecast_revenue (self : CashFlowForecaster)
    (week_start : Timestamp) : num :=
  let week_of_year := isoweek week_start in
  let historical_revenue :=
    mean (map amount
            (filter (fun r => (category r =? "Revenue")
                              && (isoweek (date r) =? week_of_year)%Z)
                    (historical self))) in
  let historical_revenue :=
    if isna historical_revenue then
      (mean (amounts_of "Revenue" (historical self)) / Fin 4)%num
    else historical_revenue in
  let growth_factor :=
    (Fin 1 + (Fin 0.05 * weeks_from_start self week_start / Fin 52))%num in
  (historical_revenue * growth_factor)%num.

(** The (lag, rate) pairs the collection loop runs over. *)
Definition lag_rates (self : CashFlowForecaster) : list (nat * Q) :=
  let p := collection_patterns self in
  [(0%nat, current p); (1%nat, week_1 p); (2%nat, week_2 p);
   (3%nat, week_3 p); (4%nat, week_4 p)].

Definition _forecast_ar_collections (self : CashFlowForecaster)
    (week_start : Timestamp) (week_index : nat) : num :=
  fold_left
    (fun collections (lr : nat * Q) =>
       let (lag_weeks, rate) := lr in
       if (lag_weeks <=? week_index)%nat then
         let past_week := week_start - timedelta_weeks (Z.of_nat lag_weeks) in
         let past_revenue := _forecast_revenue self past_week in
         (collections + past_revenue * Fin rate)%num
       else collections)
    (lag_rates self) (Fin 0).

Definition _forecast_payroll (self : CashFlowForecaster)
    (week_start : Timestamp) : num :=
  let week_number := isoweek week_start in
  if (week_number mod 2 =? 0)%Z then
    let avg_payroll := mean (amounts_of "Payroll" (historical self)) in
    if negb (isna avg_payroll) then avg_payroll else Fin 50000
  else Fin 0.

Definition opex_categories : list string :=
  ["Marketing"; "Software"; "Rent"; "Utilities";
   "Professional Services"; "Supplies"; "Travel"].

Definition isin (c : string) (cs : list string) : bool :=
  existsb (String.eqb c) cs.

(** [rows.groupby('week')['amount'].sum()]: one total per distinct week. *)
Definition groupby_week_sum (rows : list HistRow) : list Q :=
  map (fun k => sumQ (map amount (filter (fun r => (week r =? k)%Z) rows)))
      (nodup Z.eq_dec (map week rows)).

Definition _forecast_opex (self : CashFlowForecaster)
    (week_start : Timestamp) : num :=
  let weekly_opex :=
    mean (groupby_week_sum
            (filter (fun r => isin (category r) opex_categories)
                    (historical self))) in
  if negb (isna weekly_opex) then weekly_opex else Fin 15000.

(** One entry of [scenario_adjustments]. *)
Record Adjustment : Type := mkAdjustment {
  adj_revenue : Q;
  adj_collections : Q;
  adj_expenses : Q
}.

Definition scenario_adjustments : list (string * Adjustment) :=
  [("best", mkAdjustment 1.15 1.10 0.95);
   ("base", mkAdjustment 1.00 1.00 1.00);
   ("worst", mkAdjustment 0.85 0.90 1.05)].

(** Dictionary subscript, [None] standing for the [KeyError]. *)
Fixpoint dict_get {V : Type} (d : list (string * V)) (k : string) : option V :=
  match d with
  | [] => None
  | (k', v) :: rest => if k' =? k then Some v else dict_get rest k
  end.

(** A row of the forecast table. *)
Record ForecastWeek : Type := mkForecastWeek {
  week_number : Z;
  week_start : Timestamp;
  week_end : Timestamp;
  opening_balance : num;
  revenue : num;
  ar_collections : num;
  total_inflows : num;
  cogs : num;
  payroll : num;
  operating_expenses : num;
  total_outflows : num;
  net_cash_flow : num;
  ending_balance : num;
  scenario : string
}.

(** The body of the loop of [generate_forecast] for index [i]. *)
Definition forecast_row (self : CashFlowForecaster) (adj : Adjustment)
    (scenario : string) (i : nat) (week_start : Timestamp)
    (current_balance : num) : ForecastWeek :=
  let week_end := week_start + timedelta_days 6 in
  let revenue :=
    (_forecast_revenue self week_start * Fin (adj_revenue adj))%num in
  let ar_collections :=
    (_forecast_ar_collections self week_start i
     * Fin (adj_collections adj))%num in
  let total_inflows := (revenue + ar_collections)%num in
  let cogs := (revenue * Fin 0.35)%num in
  let payroll :=
    (_forecast_payroll self week_start * Fin (adj_expenses adj))%num in
  let operating_expenses :=
    (_forecast_opex self week_start * Fin (adj_expenses adj))%num in
  let total_outflows := (cogs + payroll + operating_expenses)%num in
  let net_cash_flow := (total_inflows - total_outflows)%num in
  let ending_balance := (current_balance + net_cash_flow)%num in
  mkForecastWeek (Z.of_nat i + 1) week_start week_end current_balance
    revenue ar_collections total_inflows cogs payroll operating_expenses
    total_outflows net_cash_flow ending_balance scenario.

(** [enumerate(weeks)], counting from [k]. *)
Fixpoint enumerate_from {A : Type} (k : nat) (l : list A) : list (nat * A) :=
  match l with
  | [] => []
  | x :: rest => (k, x) :: enumerate_from (S k) rest
  end.

Definition enumerate {A : Type} (l : list A) : list (nat * A) :=
  enumerate_from 0 l.

(** The loop of [generate_forecast]: the rows appended, with
    [current_balance] carried from one iteration to the next. *)
Fixpoint forecast_loop (self : CashFlowForecaster) (adj : Adjustment)
    (scenario : string) (weeks : list (nat * Timestamp))
    (current_balance : num) : list ForecastWeek :=
  match weeks with
  | [] => []
  | (i, week_start) :: rest =>
      let row := forecast_row self adj scenario i week_start current_balance in
      row :: forecast_loop self adj scenario rest (ending_balance row)
  end.

Definition generate_forecast (self : CashFlowForecaster)
    (start_date : Timestamp) (opening_balance : Q) (scenario : string)
  : result (list ForecastWeek) :=
  let weeks := date_range start_date 13 in
  match dict_get scenario_adjustments scenario with
  | None => Err (KeyError scenario)
  | Some adj =>
      Ok (forecast_loop self adj scenario (enumerate weeks)
            (Fin opening_balance))
  end.

(** Rows of the sensitivity table.  [change] is the tested fraction, which
    the code stores as a percent label; [variance_pct], a quotient by the
    base balance, is not part of the model. *)
Module SensitivityRow.
Record t : Type := mk {
  variable : string;
  change : Q;
  ending_balance : num;
  variance_from_base : num
}.
End SensitivityRow.

Definition sensitivity_row (variable : string) (elasticity : Q)
    (base_ending : num) (change : Q) : SensitivityRow.t :=
  let adjusted_ending :=
    (base_ending * (Fin 1 + Fin change * Fin elasticity))%num in
  SensitivityRow.mk variable change adjusted_ending
    (adjusted_ending - base_ending)%num.

(** [df.iloc[-1]], an [IndexError] on an empty table. *)
Definition iloc_last {A : Type} (l : list A) : result A :=
  match rev l with
  | [] => Err IndexError
  | x :: _ => Ok x
  end.

(** The base forecast that the Revenue loop computes again on each turn is
    never read and does not appear here. *)
Definition sensitivity_analysis (self : CashFlowForecaster)
    (start_date : Timestamp) (opening_balance : Q)
  : result (list SensitivityRow.t) :=
  match generate_forecast self start_date opening_balance "base" with
  | Err e => Err e
  | Ok base_forecast =>
      match iloc_last base_forecast with
      | Err e => Err e
      | Ok last_row =>
          let base_ending := ending_balance last_row in
          Ok (map (sensitivity_row "Revenue" 1.5 base_ending)
                  [-0.20; -0.10; 0; 0.10; 0.20]%Q
              ++ map (sensitivity_row "Collection Rate" 0.8 base_ending)
                  [-0.20; -0.10; 0; 0.10; 0.20]%Q)%list
      end
  end.

(* ================================================================== *)
(** ** Sample inputs *)

Local Open Scope Z_scope.

(** 2024-01-01, a Monday in ISO week 1, is day 19723 of the epoch. *)
Definition monday_2024_01_01 : Timestamp := midnight 19723.

(** Two weeks of revenue and one payroll run. *)
Definition sample_history : list Transaction :=
  [mkTransaction monday_2024_01_01 "Revenue" 100000 "Net 30";
   mkTransaction (midnight 19730) "Revenue" 100000 "Net 30";
   mkTransaction (midnight 19730) "Payroll" 55000 "Immediate"].

(** A history with payroll runs and no revenue at all. *)
Definition payroll_only_history : list Transaction :=
  [mkTransaction monday_2024_01_01 "Payroll" 55000 "Immediate";
   mkTransaction (midnight 19737) "Payroll" 55000 "Immediate"].

(** The scenario labels of the table. *)
Definition known_scenarios : list string := ["base"; "best"; "worst"].

(* ================================================================== *)
(** ** The properties, as the specification words them *)

Section ProjectionSpecs.

Variable historical_data : list Transaction.

(** Amounts of the input rows of category [c] that satisfy [p]. *)
Definition input_amounts (c : string) (p : Transaction -> bool) : list Q :=
  map t_amount
      (filter (fun t => (t_category t =? c)%string && p t) historical_data).

(** The mean of the Revenue amounts in the ISO week of [w] over all years,
    or a quarter of the mean of all Revenue amounts when that week has no
    Revenue row. *)
Definition revenue_base_spec (w : Timestamp) : num :=
  match input_amounts "Revenue" (fun t => isoweek (t_date t) =? isoweek w) with
  | [] => (mean (input_amounts "Revenue" (fun _ => true)) / Fin 4)%num
  | matching => mean matching
  end.

(** Weeks from the earliest historical date to [w]: the day difference
    over 7. *)
Definition weeks_elapsed_spec (w : Timestamp) : num :=
  match min_date (map t_date historical_data) with
  | None => NaN
  | Some earliest => Fin (inject_Z (days (w - earliest)) / 7)
  end.

Definition growth_factor_spec (w : Timestamp) : num :=
  (Fin 1 + Fin 0.05 * (weeks_elapsed_spec w / Fin 52))%num.

Definition revenue_spec (w : Timestamp) (revenue_multiplier : Q) : num :=
  (revenue_base_spec w * growth_factor_spec w * Fin revenue_multiplier)%num.

(** The mean of the Payroll amounts, 50000 without Payroll rows, times the
    expense multiplier, in a week whose ISO number is even; 0 in a week
    whose ISO number is odd. *)
Definition payroll_spec (w : Timestamp) (expense_multiplier : Q) : num :=
  if Z.even (isoweek w) then
    (match input_amounts "Payroll" (fun _ => true) with
     | [] => Fin 50000
     | payroll_amounts => mean payroll_amounts
     end * Fin expense_multiplier)%num
  else Fin 0.

End ProjectionSpecs.

(** The arithmetic identities of a forecast row. *)
Definition row_identities (r : ForecastWeek) : Prop :=
  total_inflows r = (revenue r + ar_collections r)%num /\
  total_outflows r = (cogs r + payroll r + operating_expenses r)%num /\
  net_cash_flow r = (total_inflows r - total_outflows r)%num /\
  ending_balance r = (opening_balance r + net_cash_flow r)%num.

(** The adjustment with another expense multiplier. *)
Definition with_expenses (adj : Adjustment) (e : Q) : Adjustment :=
  mkAdjustment (adj_revenue adj) (adj_collections adj) e.

(** The fraction of a week's revenue collected [lag] weeks later. *)
Definition collection_fraction (lag : nat) : Q :=
  match lag with
  | 0%nat => 0.30
  | 1%nat => 0.40
  | 2%nat => 0.20
  | 3%nat => 0.08
  | 4%nat => 0.02
  | _ => 0
  end.

Definition nsum (l : list num) : num := fold_right nadd (Fin 0) l.

(** The collections multiplier times the sum, over the lags 0..4 that do not
    exceed the index of the week, of the revenue estimate of the week [lag]
    weeks earlier times the fraction of that lag. *)
Definition ar_collections_spec (self : CashFlowForecaster) (w : Timestamp)
    (i : nat) (collections_multiplier : Q) : num :=
  (Fin collections_multiplier
   * nsum (map (fun lag =>
                  _forecast_revenue self (w - timedelta_weeks (Z.of_nat lag))%Z
                  * Fin (collection_fraction lag))
               (filter (fun lag => (lag <=? i)%nat) [0; 1; 2; 3; 4]%nat)))%num.

Definition tested_changes : list Q := [-0.20; -0.10; 0; 0.10; 0.20]%Q.

(** The ending balance of week 13. *)
Definition week13_ending (self : CashFlowForecaster) (start_date : Timestamp)
    (opening : Q) (sc : string) : option num :=
  match generate_forecast self start_date opening sc with
  | Ok rows => option_map ending_balance (nth_error rows 12)
  | Err _ => None
  end.

(** best >= base >= worst on the ending balance of week 13. *)
Definition scenario_ordered (self : CashFlowForecaster) (start_date : Timestamp)
    (opening : Q) : Prop :=
  match week13_ending self start_date opening "best",
        week13_ending self start_date opening "base",
        week13_ending self start_date opening "worst" with
  | Some best, Some base, Some worst => nle worst base /\ nle base best
  | _, _, _ => False
  end.

(** The revenue and the AR collections estimates of the 13 weeks, before
    any scenario multiplier, are strictly positive. *)
Definition positive_estimates (self : CashFlowForecaster)
    (start_date : Timestamp) : Prop :=
  Forall (fun iw : nat * Timestamp =>
            npos (_forecast_revenue self (snd iw)) /\
            npos (_forecast_ar_collections self (snd iw) (fst iw)))
         (enumerate (date_range start_date 13)).

Definition opex_rows (self : CashFlowForecaster) : list HistRow :=
  filter (fun r => isin (category r) opex_categories) (historical self).

(** Payroll and operating expenses are flat: every Payroll amount of the
    history is the same, and so is every weekly total of operating
    expenses. *)
Definition held_flat (self : CashFlowForecaster) : Prop :=
  (exists p, Forall (fun a => a == p)%Q (amounts_of "Payroll" (historical self))) /\
  (exists o, Forall (fun a => a == o)%Q (groupby_week_sum (opex_rows self))).

(** No Payroll or operating expense amount of the history is negative. *)
Definition nonneg_expenses (self : CashFlowForecaster) : Prop :=
  Forall (fun a => 0 <= a)%Q (amounts_of "Payroll" (historical self)) /\
  Forall (fun r => 0 <= amount r)%Q (opex_rows self).

(** Two weeks of revenue, and a flat payroll booked as a negative amount. *)
Definition negative_payroll_history : list Transaction :=
  [mkTransaction monday_2024_01_01 "Revenue" 100000 "Net 30";
   mkTransaction (midnight 19730) "Revenue" 100000 "Net 30";
   mkTransaction (midnight 19730) "Payroll" (-1000000) "Immediate";
   mkTransaction (midnight 19744) "Payroll" (-1000000) "Immediate"].

(** [lo] is no kinder than [hi]: it multiplies the inflows by no more and
    the expenses by no less. *)
Definition adj_le (lo hi : Adjustment) : Prop :=
  (adj_revenue lo <= adj_revenue hi)%Q /\
  (adj_collections lo <= adj_collections hi)%Q /\
  (adj_expenses hi <= adj_expenses lo)%Q.

(* ================================================================== *)
(** ** The runway *)

(** [balance < threshold] on a column of floats: False on NaN. *)
Definition below (balance : num) (threshold : Q) : bool :=
  match balance with
  | Fin a => negb (Qle_bool threshold a)
  | NaN => false
  end.

(** The decimal rendering of an integer in an f-string. *)
Definition string_of_Z (z : Z) : string := NilZero.string_of_int (Z.to_int z).

(** [calculate_runway]; [burn_threshold] defaults to 50000. *)
Definition calculate_runway (forecast_df : list ForecastWeek)
    (burn_threshold : Q) : Z * string :=
  let below_threshold :=
    filter (fun r => below (ending_balance r) burn_threshold) forecast_df in
  match below_threshold with
  | [] => (13, "Beyond forecast period")
  | first :: _ =>
      let first_week := week_number first in
      (first_week, "Week " ++ string_of_Z first_week)
  end.

Definition default_burn_threshold : Q := 50000.

(* ================================================================== *)
(** ** Vocabulary of the further properties *)

(** Every amount of the row is a number. *)
Definition finite_row (r : ForecastWeek) : Prop :=
  Forall (fun x => isna x = false)
         [opening_balance r; revenue r; ar_collections r; total_inflows r;
          cogs r; payroll r; operating_expenses r; total_outflows r;
          net_cash_flow r; ending_balance r].

(** The history has a Revenue row. *)
Definition has_revenue (self : CashFlowForecaster) : Prop :=
  amounts_of "Revenue" (historical self) <> [].

(** The rows agree on everything but the balances. *)
Definition same_flows (r r' : ForecastWeek) : Prop :=
  week_number r = week_number r' /\ week_start r = week_start r' /\
  week_end r = week_end r' /\ revenue r = revenue r' /\
  ar_collections r = ar_collections r' /\ total_inflows r = total_inflows r' /\
  cogs r = cogs r' /\ payroll r = payroll r' /\
  operating_expenses r = operating_expenses r' /\
  total_outflows r = total_outflows r' /\ net_cash_flow r = net_cash_flow r'.

(** The fields of [r] are those of the base row [r0] scaled by the
    multipliers [adj]. *)
Definition scaled_by (adj : Adjustment) (r0 r : ForecastWeek) : Prop :=
  week_number r = week_number r0 /\ week_start r = week_start r0 /\
  week_end r = week_end r0 /\
  revenue r =~ (revenue r0 * Fin (adj_revenue adj))%num /\
  ar_collections r =~ (ar_collections r0 * Fin (adj_collections adj))%num /\
  cogs r =~ (cogs r0 * Fin (adj_revenue adj))%num /\
  payroll r =~ (payroll r0 * Fin (adj_expenses adj))%num /\
  operating_expenses r
  =~ (operating_expenses r0 * Fin (adj_expenses adj))%num.

(** The ending balance of the row is not below the threshold. *)
Definition not_below (threshold : Q) (r : ForecastWeek) : Prop :=
  below (ending_balance r) threshold = false.

(** The first base row of the sample history, opened with [b]. *)
Definition sample_row (b : Q) : ForecastWeek :=
  forecast_row (init sample_history) (mkAdjustment 1.00 1.00 1.00) "base"
    0 monday_2024_01_01 (Fin b).

(** The input rows in the operating expense categories. *)
Definition opex_input (historical_data : list Transaction) : list Transaction :=
  filter (fun t => isin (t_category t) opex_categories) historical_data.

(** The total of the operating expense amounts. *)
Definition opex_total (historical_data : list Transaction) : Q :=
  sumQ (map t_amount (opex_input historical_data)).

(** The number of distinct Monday-to-Sunday weeks with an operating
    expense row. *)
Definition opex_week_count (historical_data : list Transaction) : nat :=
  List.length
    (nodup Z.eq_dec
       (map (fun t => to_period_W (t_date t)) (opex_input historical_data))).

(** The weekly operating expenses: the total over the number of weeks that
    have any, 15000 without operating expense rows. *)
Definition opex_spec (historical_data : list Transaction) : Q :=
  match opex_input historical_data with
  | [] => 15000
  | _ :: _ =>
      (opex_total historical_data
       / inject_Z (Z.of_nat (opex_week_count historical_data)))%Q
  end.

(** The elasticity the sensitivity table applies to a variable. *)
Definition elasticity_of (variable : string) : Q :=
  if (variable =? "Revenue")%string then 1.5 else 0.8.

(** The history has a Revenue row in the ISO week of [w]. *)
Definition revenue_week_known (historical_data : list Transaction)
    (w : Timestamp) : bool :=
  existsb (fun t => (t_category t =? "Revenue")%string
                    && (isoweek (t_date t) =? isoweek w))
          historical_data.

(** The sample history with operating expenses in two weeks, two of them
    in the same week. *)
Definition mixed_history : list Transaction :=
  (sample_history
   ++ [mkTransaction (midnight 19724) "Marketing" 9000 "Net 30";
       mkTransaction (midnight 19726) "Rent" 12000 "Immediate";
       mkTransaction (midnight 19731) "Travel" 3000 "Net 15"])%list.

(** Every Revenue amount of the input is [c]. *)
Definition revenue_constant (historical_data : list Transaction) (c : Q) : Prop :=
  Forall (fun a => a == c)%Q (input_amounts historical_data "Revenue" (fun _ => true)).

(** Every Revenue amount of the input is strictly positive. *)
Definition revenue_positive (historical_data : list Transaction) : Prop :=
  Forall (fun a => 0 < a)%Q (input_amounts historical_data "Revenue" (fun _ => true)).

(** The row of [self.historical] that [__init__] makes of an input row. *)
Definition hist_row_of (x : Transaction) : HistRow :=
  mkHistRow (t_date x) (t_category x) (t_amount x) (t_payment_terms x)
            (to_period_W (t_date x)).

(** The categories no projection reads: all but Revenue, Payroll and the
    operating expense categories. *)
Definition ignored_category (c : string) : bool :=
  negb ((c =? "Revenue")%string || (c =? "Payroll")%string
        || isin c opex_categories).

(** The rows agree on their weeks and label and, as numbers, on every
    amount. *)
Definition row_equiv (r r' : ForecastWeek) : Prop :=
  week_number r = week_number r' /\ week_start r = week_start r' /\
  week_end r = week_end r' /\ scenario r = scenario r' /\
  opening_balance r =~ opening_balance r' /\ revenue r =~ revenue r' /\
  ar_collections r =~ ar_collections r' /\
  total_inflows r =~ total_inflows r' /\ cogs r =~ cogs r' /\
  payroll r =~ payroll r' /\
  operating_expenses r =~ operating_expenses r' /\
  total_outflows r =~ total_outflows r' /\
  net_cash_flow r =~ net_cash_flow r' /\
  ending_balance r =~ ending_balance r'.

(* ================================================================== *)
(** ** The ranges of pandas *)

(** The largest 64-bit integer: [Timestamp.max] and [Timedelta.max] in
    nanoseconds, and the largest value of an integer column. *)
Definition INT64_MAX : Z := 2 ^ 63 - 1.

(** [x] lies within the 64-bit integer range. *)
Definition in_int64 (x : Q) : Prop :=
  (- inject_Z INT64_MAX <= x <= inject_Z INT64_MAX)%Q.

(** The dates of the history, the start date, the 13 week starts and week
    ends are timestamps of pandas, and the difference between each week
    start and the earliest date of the history is a timedelta of pandas. *)
Definition timestamps_in_range (historical_data : list Transaction)
    (start_date : Timestamp) : Prop :=
  Forall (fun t => - INT64_MAX <= t_date t <= INT64_MAX) historical_data /\
  - INT64_MAX <= start_date /\
  rollforward_monday start_date + timedelta_weeks 12 + timedelta_days 6
  <= INT64_MAX /\
  match min_date (map t_date historical_data) with
  | None => True
  | Some earliest =>
      - INT64_MAX <= rollforward_monday start_date - earliest /\
      rollforward_monday start_date + timedelta_weeks 12 - earliest <= INT64_MAX
  end.

(** Every amount of the history and every weekly total of the operating
    expenses lies within the 64-bit integer range. *)
Definition amounts_in_range (historical_data : list Transaction) : Prop :=
  Forall (fun t => in_int64 (t_amount t)) historical_data /\
  Forall in_int64 (groupby_week_sum (opex_rows (init historical_data))).

(** The opening balance lies within the 64-bit integer range. *)
Definition balance_in_range (opening : Q) : Prop := in_int64 opening.

(** Payroll and operating expenses are flat at levels that are not
    negative: every Payroll amount of the history is the same value, every
    weekly total of operating expenses is the same value, and neither value
    is negative. *)
Definition held_flat_nonneg (self : CashFlowForecaster) : Prop :=
  (exists p, (0 <= p)%Q /\
             Forall (fun a => a == p)%Q (amounts_of "Payroll" (historical self))) /\
  (exists o, (0 <= o)%Q /\
             Forall (fun a => a == o)%Q (groupby_week_sum (opex_rows self))).

(** No Payroll amount and no weekly total of operating expenses is
    negative. *)
Definition nonneg_levels (self : CashFlowForecaster) : Prop :=
  Forall (fun a => 0 <= a)%Q (amounts_of "Payroll" (historical self)) /\
  Forall (fun a => 0 <= a)%Q (groupby_week_sum (opex_rows self)).

(** Revenue in two weeks, a flat payroll of 55000 in two runs, and operating
    expenses that total 50 in each of two weeks: 100 and -50 in the first,
    50 in the second. *)
Definition flat_history : list Transaction :=
  [mkTransaction monday_2024_01_01 "Revenue" 100000 "Net 30";
   mkTransaction (midnight 19730) "Revenue" 100000 "Net 30";
   mkTransaction (midnight 19730) "Payroll" 55000 "Immediate";
   mkTransaction (midnight 19744) "Payroll" 55000 "Immediate";
   mkTransaction (midnight 19724) "Marketing" 100 "Net 30";
   mkTransaction (midnight 19726) "Supplies" (-50) "Net 15";
   mkTransaction (midnight 19731) "Rent" 50 "Immediate"].

(* ================================================================== *)
(** ** Facts about the number model *)

Section NumFacts.

Lemma same_num_refl (x : num) : x =~ x.
Proof. destruct x; simpl; auto. reflexivity. Qed.

Lemma same_num_sym (x y : num) : x =~ y -> y =~ x.
Proof. destruct x, y; simpl; auto. intros H; symmetry; exact H. Qed.

Lemma same_num_trans (x y z : num) : x =~ y -> y =~ z -> x =~ z.
Proof.
  destruct x, y, z; simpl; auto; try contradiction.
  intros H1 H2; rewrite H1; exact H2.
Qed.

Lemma same_num_of_eq (x y : num) : x = y -> x =~ y.
Proof. intros ->; apply same_num_refl. Qed.

Lemma nmul_same (x x' y y' : num) :
  x =~ x' -> y =~ y' -> (x * y)%num =~ (x' * y')%num.
Proof.
  destruct x, x', y, y'; simpl; auto; try contradiction.
  intros H1 H2; rewrite H1, H2; reflexivity.
Qed.

Lemma nadd_same (x x' y y' : num) :
  x =~ x' -> y =~ y' -> (x + y)%num =~ (x' + y')%num.
Proof.
  destruct x, x', y, y'; simpl; auto; try contradiction.
  intros H1 H2; rewrite H1, H2; reflexivity.
Qed.

Lemma isna_false_fin (x : num) : isna x = false -> exists q, x = Fin q.
Proof. destruct x; simpl; [eauto | discriminate]. Qed.

Lemma mean_nonempty (l : list Q) : l <> [] -> exists q, mean l = Fin q.
Proof. destruct l; [congruence | simpl; eauto]. Qed.

Lemma mean_isna (l : list Q) : isna (mean l) = true <-> l = [].
Proof. destruct l; simpl; split; congruence. Qed.

Lemma sumQ_nonneg (l : list Q) :
  Forall (fun a => 0 <= a)%Q l -> (0 <= sumQ l)%Q.
Proof.
  induction 1 as [|a l Ha _ IH]; simpl; [apply Qle_refl|].
  lra.
Qed.

Lemma mean_nonneg (l : list Q) (q : Q) :
  Forall (fun a => 0 <= a)%Q l -> mean l = Fin q -> (0 <= q)%Q.
Proof.
  intros Hl; destruct l as [|a l]; simpl; [discriminate|].
  intros H; injection H as <-.
  apply Qle_shift_div_l.
  - unfold Qlt; simpl; lia.
  - rewrite Qmult_0_l. apply (sumQ_nonneg (a :: l)); exact Hl.
Qed.

End NumFacts.

(* ================================================================== *)
(** ** Facts about the calendar *)

Section CalendarFacts.

Lemma NS_PER_DAY_pos : 0 < NS_PER_DAY.
Proof. reflexivity. Qed.

Lemma days_add (t d : Z) : days (t + timedelta_days d) = days t + d.
Proof.
  unfold days, timedelta_days.
  apply Z.div_add. pose proof NS_PER_DAY_pos; lia.
Qed.

Lemma weekday_add (t d : Z) :
  weekday (t + timedelta_days d) = (weekday t + d) mod 7.
Proof.
  unfold weekday, toordinal. rewrite days_add.
  rewrite Z.add_mod_idemp_l by lia. f_equal; lia.
Qed.

Lemma weekday_range (t : Timestamp) : 0 <= weekday t < 7.
Proof. unfold weekday; apply Z.mod_pos_bound; lia. Qed.

Lemma rollforward_monday_weekday (t : Timestamp) :
  weekday (rollforward_monday t) = 0.
Proof.
  unfold rollforward_monday.
  destruct (weekday t =? 0) eqn:E.
  - apply Z.eqb_eq; exact E.
  - rewrite weekday_add. pose proof (weekday_range t) as Hr.
    rewrite Z.add_mod_idemp_r by lia.
    replace (weekday t + (0 - weekday t)) with 0 by lia. reflexivity.
Qed.

(** The first week start is the first Monday on or after the start date,
    at the same time of day. *)
Lemma rollforward_monday_spec (t : Timestamp) :
  exists d, 0 <= d < 7 /\ rollforward_monday t = t + timedelta_days d /\
            (weekday t = 0 -> d = 0) /\
            (forall d', 0 <= d' < d -> weekday (t + timedelta_days d') <> 0).
Proof.
  unfold rollforward_monday.
  pose proof (weekday_range t) as Hr.
  destruct (weekday t =? 0) eqn:E.
  - exists 0. unfold timedelta_days. repeat split; try lia.
  - apply Z.eqb_neq in E.
    exists ((0 - weekday t) mod 7).
    assert (Hd : (0 - weekday t) mod 7 = 7 - weekday t).
    { symmetry. apply (Z.mod_unique (0 - weekday t) 7 (-1)); lia. }
    rewrite Hd. repeat split; try lia.
    intros d' Hd'. rewrite weekday_add.
    rewrite Z.mod_small by lia. lia.
Qed.

Lemma generate_range_length (cur : Timestamp) (n : nat) :
  List.length (generate_range cur n) = n.
Proof. revert cur; induction n; simpl; intros; [reflexivity | now rewrite IHn]. Qed.

Lemma generate_range_nth (n : nat) :
  forall cur i w,
    nth_error (generate_range cur n) i = Some w ->
    w = cur + timedelta_weeks (Z.of_nat i).
Proof.
  induction n as [|n IH]; intros cur i w H.
  - destruct i; discriminate.
  - destruct i as [|i]; simpl in H.
    + injection H as <-. unfold timedelta_weeks, timedelta_days. lia.
    + apply IH in H. rewrite H.
      unfold timedelta_weeks, timedelta_days. lia.
Qed.

End CalendarFacts.

(* ================================================================== *)
(** ** Facts about the forecast loop *)

Section LoopFacts.

Variable self : CashFlowForecaster.
Variable adj : Adjustment.
Variable sc : string.

Lemma enumerate_from_length {A : Type} (l : list A) :
  forall k, List.length (enumerate_from k l) = List.length l.
Proof. induction l; simpl; intros; [reflexivity | now rewrite IHl]. Qed.

Lemma enumerate_from_nth {A : Type} (l : list A) :
  forall k i, nth_error (enumerate_from k l) i
              = option_map (fun x => ((k + i)%nat, x)) (nth_error l i).
Proof.
  induction l as [|x l IH]; intros k i.
  - destruct i; reflexivity.
  - destruct i as [|i]; simpl.
    + now rewrite Nat.add_0_r.
    + rewrite IH. now rewrite Nat.add_succ_r.
Qed.

Lemma forecast_loop_length (ws : list (nat * Timestamp)) :
  forall b, List.length (forecast_loop self adj sc ws b) = List.length ws.
Proof.
  induction ws as [|[i w] ws IH]; simpl; intros; [reflexivity | now rewrite IH].
Qed.

(** Every row is the loop body run on its own week. *)
Lemma forecast_loop_nth (ws : list (nat * Timestamp)) :
  forall b n r,
    nth_error (forecast_loop self adj sc ws b) n = Some r ->
    exists i w b', nth_error ws n = Some (i, w) /\
                   r = forecast_row self adj sc i w b'.
Proof.
  induction ws as [|[i w] ws IH]; intros b n r H.
  - destruct n; discriminate.
  - destruct n as [|n]; simpl in H.
    + injection H as <-. exists i, w, b. split; reflexivity.
    + apply IH in H. exact H.
Qed.

Lemma forecast_loop_first (ws : list (nat * Timestamp)) (b : num) (r : ForecastWeek) :
  nth_error (forecast_loop self adj sc ws b) 0 = Some r ->
  opening_balance r = b.
Proof.
  destruct ws as [|[i w] ws]; simpl; [discriminate|].
  intros H; injection H as <-. reflexivity.
Qed.

(** The balance is carried from each row to the next. *)
Lemma forecast_loop_continuity (ws : list (nat * Timestamp)) :
  forall b n r r',
    nth_error (forecast_loop self adj sc ws b) n = Some r ->
    nth_error (forecast_loop self adj sc ws b) (S n) = Some r' ->
    opening_balance r' = ending_balance r.
Proof.
  induction ws as [|[i w] ws IH]; intros b n r r' H H'.
  - destruct n; discriminate.
  - destruct n as [|n].
    + simpl in H. injection H as <-.
      change (nth_error (forecast_loop self adj sc ws
                (ending_balance (forecast_row self adj sc i w b))) 0 = Some r') in H'.
      apply forecast_loop_first in H'. exact H'.
    + simpl in H, H'. eapply IH; eassumption.
Qed.

End LoopFacts.

Lemma forecast_row_identities self adj sc i w b :
  row_identities (forecast_row self adj sc i w b).
Proof. repeat split. Qed.

Lemma known_scenario_adjustment (sc : string) :
  In sc known_scenarios ->
  exists adj, dict_get scenario_adjustments sc = Some adj.
Proof.
  intros [<- | [<- | [<- | []]]]; simpl; eauto.
Qed.

Lemma generate_forecast_known self start ob sc :
  In sc known_scenarios ->
  exists adj,
    dict_get scenario_adjustments sc = Some adj /\
    generate_forecast self start ob sc
    = Ok (forecast_loop self adj sc (enumerate (date_range start 13)) (Fin ob)).
Proof.
  intros H. destruct (known_scenario_adjustment sc H) as [adj Hadj].
  exists adj. split; [exact Hadj|].
  unfold generate_forecast. rewrite Hadj. reflexivity.
Qed.

(* ================================================================== *)
(** ** Row identities and balance continuity *)

(** C1. For every history, start date, opening balance and scenario of the
    table, [generate_forecast] returns 13 rows; each row satisfies
    total_inflows = revenue + ar_collections,
    total_outflows = cogs + payroll + operating_expenses,
    net_cash_flow = total_inflows - total_outflows and
    ending_balance = opening_balance + net_cash_flow; the opening balance
    of every row after the first is the ending balance of the row before
    it, and the first row opens with the balance the caller supplied. *)
Theorem forecast_rows_balance :
  forall (historical_data : list Transaction) (start_date : Timestamp)
         (opening : Q) (sc : string),
    In sc known_scenarios ->
    exists rows,
      generate_forecast (init historical_data) start_date opening sc = Ok rows /\
      List.length rows = 13%nat /\
      Forall row_identities rows /\
      (forall n r r',
          nth_error rows n = Some r -> nth_error rows (S n) = Some r' ->
          opening_balance r' = ending_balance r) /\
      (exists r1, nth_error rows 0 = Some r1 /\ opening_balance r1 = Fin opening).
Proof.
  intros data start ob sc Hsc.
  destruct (generate_forecast_known (init data) start ob sc Hsc) as (adj & _ & Hgen).
  eexists; split; [exact Hgen|].
  assert (Hlen : List.length (forecast_loop (init data) adj sc
                   (enumerate (date_range start 13)) (Fin ob)) = 13%nat).
  { rewrite forecast_loop_length. unfold enumerate.
    rewrite enumerate_from_length. apply generate_range_length. }
  split; [exact Hlen|]. split; [|split].
  - apply Forall_forall. intros r Hr.
    apply In_nth_error in Hr. destruct Hr as [n Hn].
    apply forecast_loop_nth in Hn. destruct Hn as (i & w & b' & _ & ->).
    apply forecast_row_identities.
  - intros n r r'. apply forecast_loop_continuity.
  - destruct (nth_error _ 0) as [r1|] eqn:E.
    + exists r1. split; [reflexivity|].
      eapply forecast_loop_first; exact E.
    + apply nth_error_None in E. rewrite Hlen in E. lia.
Qed.

Lemma forecast_rows_balance_witness :
  In "base" known_scenarios /\
  exists rows,
    generate_forecast (init sample_history) monday_2024_01_01 500000 "base"
    = Ok rows /\
    List.length rows = 13%nat /\
    Forall row_identities rows /\
    (forall n r r',
        nth_error rows n = Some r -> nth_error rows (S n) = Some r' ->
        opening_balance r' = ending_balance r) /\
    (exists r1, nth_error rows 0 = Some r1 /\ opening_balance r1 = Fin 500000).
Proof.
  assert (H : In "base" known_scenarios) by (simpl; auto).
  split; [exact H|].
  exact (forecast_rows_balance sample_history monday_2024_01_01 500000 "base" H).
Defined.

(* ================================================================== *)
(** ** The weeks of the forecast *)

Lemma forecast_loop_week_numbers self adj sc (ws : list Timestamp) :
  forall k b,
    map week_number (forecast_loop self adj sc (enumerate_from k ws) b)
    = map (fun i => Z.of_nat i + 1) (seq k (List.length ws)).
Proof.
  induction ws as [|w ws IH]; intros k b; simpl; [reflexivity|].
  f_equal. apply IH.
Qed.

Lemma timestamps_in_range_sample :
  timestamps_in_range sample_history (midnight 19725 + 5).
Proof.
  unfold timestamps_in_range. split; [|split; [|split]].
  - unfold sample_history.
    repeat (apply Forall_cons || apply Forall_nil); cbn [t_date];
      split; vm_compute; discriminate.
  - vm_compute; discriminate.
  - vm_compute; discriminate.
  - vm_compute. split; discriminate.
Defined.

(** C4. A valid call is one with a scenario of the table and with dates
    that pandas can hold ([timestamps_in_range]).  For every valid call
    [generate_forecast] returns 13 rows numbered 1 to 13 in order.  The
    first week starts [d] days after the start date, where [d] in 0..6 is
    the least number of days that leads to a Monday (0 when the start date
    is a Monday); every week start is a Monday, row [n] (from 0) starts 7*n
    days after the first, every week ends 6 days after it starts, and every
    week start and week end is a timestamp of pandas. *)
Theorem forecast_weeks_calendar :
  forall (historical_data : list Transaction) (start_date : Timestamp)
         (opening : Q) (sc : string),
    In sc known_scenarios ->
    timestamps_in_range historical_data start_date ->
    exists rows,
      generate_forecast (init historical_data) start_date opening sc = Ok rows /\
      List.length rows = 13%nat /\
      map week_number rows = [1; 2; 3; 4; 5; 6; 7; 8; 9; 10; 11; 12; 13] /\
      exists d,
        0 <= d < 7 /\
        (weekday start_date = 0 -> d = 0) /\
        (forall d', 0 <= d' < d ->
                    weekday (start_date + timedelta_days d') <> 0) /\
        forall n r,
          nth_error rows n = Some r ->
          week_start r
          = start_date + timedelta_days d + timedelta_days (7 * Z.of_nat n) /\
          weekday (week_start r) = 0 /\
          week_end r = week_start r + timedelta_days 6 /\
          - INT64_MAX <= week_start r /\ week_end r <= INT64_MAX.
Proof.
  intros data start ob sc Hsc (_ & Hlo & Hhi & _).
  destruct (generate_forecast_known (init data) start ob sc Hsc) as (adj & _ & Hgen).
  eexists; split; [exact Hgen|].
  assert (Hlen : List.length (forecast_loop (init data) adj sc
                   (enumerate (date_range start 13)) (Fin ob)) = 13%nat).
  { rewrite forecast_loop_length. unfold enumerate.
    rewrite enumerate_from_length. apply generate_range_length. }
  split; [exact Hlen|].
  split.
  { unfold enumerate. rewrite forecast_loop_week_numbers.
    unfold date_range. rewrite generate_range_length. reflexivity. }
  destruct (rollforward_monday_spec start) as (d & Hd & Hroll & Hmon & Hleast).
  exists d. split; [exact Hd|]. split; [exact Hmon|]. split; [exact Hleast|].
  intros n r H.
  assert (Hn : (n < 13)%nat).
  { rewrite <- Hlen. apply nth_error_Some. congruence. }
  apply forecast_loop_nth in H. destruct H as (i & w & b' & Hnth & ->).
  unfold enumerate in Hnth. rewrite enumerate_from_nth in Hnth.
  destruct (nth_error (date_range start 13) n) as [w'|] eqn:E; [|discriminate].
  simpl in Hnth. injection Hnth as _ <-.
  apply generate_range_nth in E.
  cbn [forecast_row week_start week_end].
  assert (Hw : w' = start + timedelta_days d + timedelta_days (7 * Z.of_nat n)).
  { rewrite E, Hroll. reflexivity. }
  split; [exact Hw|]. split.
  { rewrite E. unfold timedelta_weeks. rewrite weekday_add.
    rewrite rollforward_monday_weekday.
    rewrite Z.add_0_l, Z.mul_comm. apply Z.mod_mul. lia. }
  split; [reflexivity|].
  rewrite Hroll in Hhi. rewrite Hw.
  unfold timedelta_weeks, timedelta_days, NS_PER_DAY in *. lia.
Qed.

Lemma forecast_weeks_calendar_witness :
  In "worst" known_scenarios /\
  timestamps_in_range sample_history (midnight 19725 + 5) /\
  exists rows,
    generate_forecast (init sample_history) (midnight 19725 + 5) 500000 "worst"
    = Ok rows /\
    List.length rows = 13%nat /\
    map week_number rows = [1; 2; 3; 4; 5; 6; 7; 8; 9; 10; 11; 12; 13] /\
    exists d,
      0 <= d < 7 /\
      (weekday (midnight 19725 + 5) = 0 -> d = 0) /\
      (forall d', 0 <= d' < d ->
                  weekday (midnight 19725 + 5 + timedelta_days d') <> 0) /\
      forall n r,
        nth_error rows n = Some r ->
        week_start r
        = midnight 19725 + 5 + timedelta_days d + timedelta_days (7 * Z.of_nat n) /\
        weekday (week_start r) = 0 /\
        week_end r = week_start r + timedelta_days 6 /\
        - INT64_MAX <= week_start r /\ week_end r <= INT64_MAX.
Proof.
  assert (H : In "worst" known_scenarios) by (simpl; auto).
  split; [exact H|]. split; [exact timestamps_in_range_sample|].
  exact (forecast_weeks_calendar sample_history (midnight 19725 + 5) 500000 "worst"
           H timestamps_in_range_sample).
Defined.

(* ================================================================== *)
(** ** Scenarios *)


(* ================================================================== *)
(** ** Cost of goods sold *)

Lemma forecast_loop_cogs_expenses self adj sc e (ws : list (nat * Timestamp)) :
  forall b b',
    map cogs (forecast_loop self adj sc ws b)
    = map cogs (forecast_loop self (with_expenses adj e) sc ws b').
Proof.
  induction ws as [|[i w] ws IH]; intros b b'; simpl; [reflexivity|].
  f_equal. apply IH.
Qed.

(** C6. In every row of every scenario of the table, cogs is the revenue
    reported in that row, scenario revenue multiplier included, times 0.35;
    and the cogs column is the same whatever expense multiplier the loop
    runs with. *)
Theorem cogs_of_revenue :
  forall (historical_data : list Transaction) (start_date : Timestamp)
         (opening : Q) (sc : string),
    In sc known_scenarios ->
    exists rows adj,
      dict_get scenario_adjustments sc = Some adj /\
      generate_forecast (init historical_data) start_date opening sc = Ok rows /\
      Forall (fun r =>
                cogs r = (revenue r * Fin 0.35)%num /\
                revenue r = (_forecast_revenue (init historical_data) (week_start r)
                             * Fin (adj_revenue adj))%num) rows /\
      forall e : Q,
        map cogs rows
        = map cogs (forecast_loop (init historical_data) (with_expenses adj e) sc
                      (enumerate (date_range start_date 13)) (Fin opening)).
Proof.
  intros data start ob sc Hsc.
  destruct (generate_forecast_known (init data) start ob sc Hsc) as (adj & Hadj & Hgen).
  eexists; exists adj. split; [exact Hadj|]. split; [exact Hgen|]. split.
  - apply Forall_forall. intros r Hr.
    apply In_nth_error in Hr. destruct Hr as [n Hn].
    apply forecast_loop_nth in Hn. destruct Hn as (i & w & b' & _ & ->).
    split; reflexivity.
  - intros e. apply forecast_loop_cogs_expenses.
Qed.

Lemma cogs_of_revenue_witness :
  In "best" known_scenarios /\
  exists rows adj,
    dict_get scenario_adjustments "best" = Some adj /\
    generate_forecast (init sample_history) monday_2024_01_01 500000 "best"
    = Ok rows /\
    Forall (fun r =>
              cogs r = (revenue r * Fin 0.35)%num /\
              revenue r = (_forecast_revenue (init sample_history) (week_start r)
                           * Fin (adj_revenue adj))%num) rows /\
    forall e : Q,
      map cogs rows
      = map cogs (forecast_loop (init sample_history) (with_expenses adj e) "best"
                    (enumerate (date_range monday_2024_01_01 13)) (Fin 500000)).
Proof.
  assert (H : In "best" known_scenarios) by (simpl; auto).
  split; [exact H|].
  exact (cogs_of_revenue sample_history monday_2024_01_01 500000 "best" H).
Defined.

(* ================================================================== *)
(** ** The projections meet their wording *)

Section Projections.

Variable historical_data : list Transaction.

Lemma init_filter_amounts (q : HistRow -> bool) (p : Transaction -> bool) :
  (forall t, q (mkHistRow (t_date t) (t_category t) (t_amount t)
                          (t_payment_terms t) (to_period_W (t_date t))) = p t) ->
  map amount (filter q (historical (init historical_data)))
  = map t_amount (filter p historical_data).
Proof.
  intros Hqp. unfold init; simpl.
  induction historical_data as [|t l IH]; simpl; [reflexivity|].
  rewrite Hqp. destruct (p t); simpl; rewrite IH; reflexivity.
Qed.

Lemma init_amounts_of (c : string) :
  amounts_of c (historical (init historical_data))
  = input_amounts historical_data c (fun _ => true).
Proof.
  unfold amounts_of, input_amounts. apply init_filter_amounts.
  intros t; simpl. now rewrite andb_true_r.
Qed.

Lemma init_dates :
  map date (historical (init historical_data)) = map t_date historical_data.
Proof. unfold init; simpl. rewrite map_map. reflexivity. Qed.

Lemma forecast_revenue_spec (w : Timestamp) :
  _forecast_revenue (init historical_data) w
  =~ (revenue_base_spec historical_data w * growth_factor_spec historical_data w)%num.
Proof.
  unfold _forecast_revenue, revenue_base_spec, growth_factor_spec.
  apply nmul_same.
  - rewrite init_amounts_of.
    rewrite (init_filter_amounts _
               (fun t => (t_category t =? "Revenue")%string
                         && (isoweek (t_date t) =? isoweek w)))
      by (intros t; reflexivity).
    fold (input_amounts historical_data "Revenue" (fun t => isoweek (t_date t) =? isoweek w)).
    destruct (input_amounts historical_data "Revenue" (fun t => isoweek (t_date t) =? isoweek w));
      apply same_num_refl.
  - unfold weeks_from_start, weeks_elapsed_spec. rewrite init_dates.
    destruct (min_date (map t_date historical_data)); simpl; [|exact I].
    field.
Qed.

Lemma forecast_payroll_spec (w : Timestamp) (e : Q) :
  (_forecast_payroll (init historical_data) w * Fin e)%num =~ payroll_spec historical_data w e.
Proof.
  unfold _forecast_payroll, payroll_spec.
  rewrite init_amounts_of.
  pose proof (Zmod_even (isoweek w)) as Hev.
  destruct (Z.even (isoweek w)); rewrite Hev; simpl (_ =? _).
  - destruct (input_amounts historical_data "Payroll" (fun _ => true)); apply same_num_refl.
  - simpl. ring.
Qed.

End Projections.

(** The earliest date is a date of the history and no date is before it. *)
Lemma min_date_least (ds : list Timestamp) (m : Timestamp) :
  min_date ds = Some m -> In m ds /\ Forall (fun d => m <= d) ds.
Proof.
  destruct ds as [|d rest]; simpl; [discriminate|].
  intros H; injection H as <-.
  assert (G : forall l a, (fold_left Z.min l a = a \/ In (fold_left Z.min l a) l)
                          /\ fold_left Z.min l a <= a
                          /\ Forall (fun x => fold_left Z.min l a <= x) l).
  { induction l as [|x l IH]; intros a; simpl.
    - repeat split; auto; lia.
    - destruct (IH (Z.min a x)) as (Hin & Hle & Hall).
      repeat split.
      + destruct Hin as [Hin | Hin]; [|auto].
        rewrite Hin. destruct (Z.min_spec a x) as [[_ ->] | [_ ->]]; auto.
      + lia.
      + constructor; [lia | exact Hall]. }
  destruct (G rest d) as (Hin & Hle & Hall).
  split.
  - destruct Hin as [-> | Hin]; auto.
  - constructor; [exact Hle | exact Hall].
Qed.

(* ================================================================== *)
(** ** Revenue *)

(** C2. In every row the revenue is the mean of the historical Revenue
    amounts in the ISO week of the row's week start, over all years, or a
    quarter of the mean of all Revenue amounts when there is none; times the
    growth factor 1 + 0.05 * (weeks from the earliest historical date / 52),
    the weeks being the day difference over 7; times the revenue multiplier
    of the scenario. *)
Theorem revenue_of_history :
  forall (historical_data : list Transaction) (start_date : Timestamp)
         (opening : Q) (sc : string),
    In sc known_scenarios ->
    exists rows adj,
      dict_get scenario_adjustments sc = Some adj /\
      generate_forecast (init historical_data) start_date opening sc = Ok rows /\
      Forall (fun r =>
                revenue r
                =~ revenue_spec historical_data (week_start r) (adj_revenue adj))
             rows.
Proof.
  intros data start ob sc Hsc.
  destruct (generate_forecast_known (init data) start ob sc Hsc) as (adj & Hadj & Hgen).
  eexists; exists adj. split; [exact Hadj|]. split; [exact Hgen|].
  apply Forall_forall. intros r Hr.
  apply In_nth_error in Hr. destruct Hr as [n Hn].
  apply forecast_loop_nth in Hn. destruct Hn as (i & w & b' & _ & ->).
  simpl. unfold revenue_spec.
  apply nmul_same; [apply forecast_revenue_spec | apply same_num_refl].
Qed.

Lemma revenue_of_history_witness :
  In "best" known_scenarios /\
  exists rows adj,
    dict_get scenario_adjustments "best" = Some adj /\
    generate_forecast (init sample_history) monday_2024_01_01 500000 "best"
    = Ok rows /\
    Forall (fun r =>
              revenue r
              =~ revenue_spec sample_history (week_start r) (adj_revenue adj))
           rows.
Proof.
  assert (H : In "best" known_scenarios) by (simpl; auto).
  split; [exact H|].
  exact (revenue_of_history sample_history monday_2024_01_01 500000 "best" H).
Defined.

(* ================================================================== *)
(** ** Payroll *)

(** C7. In every row the payroll is the mean of the historical Payroll
    amounts, or 50000 when the history has no Payroll row, times the expense
    multiplier of the scenario when the ISO week number of the row's week
    start is even, and 0 when that number is odd. *)
Theorem payroll_biweekly :
  forall (historical_data : list Transaction) (start_date : Timestamp)
         (opening : Q) (sc : string),
    In sc known_scenarios ->
    exists rows adj,
      dict_get scenario_adjustments sc = Some adj /\
      generate_forecast (init historical_data) start_date opening sc = Ok rows /\
      Forall (fun r =>
                payroll r
                =~ payroll_spec historical_data (week_start r) (adj_expenses adj))
             rows.
Proof.
  intros data start ob sc Hsc.
  destruct (generate_forecast_known (init data) start ob sc Hsc) as (adj & Hadj & Hgen).
  eexists; exists adj. split; [exact Hadj|]. split; [exact Hgen|].
  apply Forall_forall. intros r Hr.
  apply In_nth_error in Hr. destruct Hr as [n Hn].
  apply forecast_loop_nth in Hn. destruct Hn as (i & w & b' & _ & ->).
  simpl. apply forecast_payroll_spec.
Qed.

Lemma payroll_biweekly_witness :
  In "worst" known_scenarios /\
  exists rows adj,
    dict_get scenario_adjustments "worst" = Some adj /\
    generate_forecast (init sample_history) monday_2024_01_01 500000 "worst"
    = Ok rows /\
    Forall (fun r =>
              payroll r
              =~ payroll_spec sample_history (week_start r) (adj_expenses adj))
           rows.
Proof.
  assert (H : In "worst" known_scenarios) by (simpl; auto).
  split; [exact H|].
  exact (payroll_biweekly sample_history monday_2024_01_01 500000 "worst" H).
Defined.

(* ================================================================== *)
(** ** Collections *)

Lemma calculate_collection_patterns_const (hist : list HistRow) :
  _calculate_collection_patterns hist
  = mkCollectionPatterns 0.30 0.40 0.20 0.08 0.02.
Proof.
  unfold _calculate_collection_patterns.
  destruct (List.length _ =? 0)%nat; reflexivity.
Qed.

Lemma init_lag_rates (historical_data : list Transaction) :
  lag_rates (init historical_data)
  = map (fun lag => (lag, collection_fraction lag)) [0; 1; 2; 3; 4]%nat.
Proof.
  unfold lag_rates, init.
  cbn [collection_patterns]. rewrite calculate_collection_patterns_const.
  reflexivity.
Qed.

Ltac revenue_cases :=
  repeat match goal with
         | |- context [_forecast_revenue ?s ?w] =>
             let x := fresh "x" in
             generalize (_forecast_revenue s w); intro x; destruct x
         end.

Lemma forecast_ar_collections_spec (historical_data : list Transaction)
    (w : Timestamp) (i : nat) (m : Q) :
  (_forecast_ar_collections (init historical_data) w i * Fin m)%num
  =~ ar_collections_spec (init historical_data) w i m.
Proof.
  unfold _forecast_ar_collections, ar_collections_spec.
  rewrite init_lag_rates.
  generalize (init historical_data); intros self.
  do 4 (destruct i as [|i];
        [cbn [map filter fold_left Nat.leb collection_fraction nsum fold_right];
         revenue_cases; cbn; try exact I; ring|]).
  cbn [map filter fold_left Nat.leb collection_fraction nsum fold_right].
  revenue_cases; cbn; try exact I; ring.
Qed.

(** C3. In the row of index [n] (from 0) the AR collections are the
    collections multiplier of the scenario times the sum, over the lags
    0..4 that do not exceed [n], of the revenue estimate, before any
    scenario multiplier, of the week [lag] weeks before the row's week start
    times the fraction 0.30, 0.40, 0.20, 0.08 or 0.02 of that lag; the first
    row has the lag-0 term only. *)
Theorem ar_collections_lagged :
  forall (historical_data : list Transaction) (start_date : Timestamp)
         (opening : Q) (sc : string),
    In sc known_scenarios ->
    exists rows adj,
      dict_get scenario_adjustments sc = Some adj /\
      generate_forecast (init historical_data) start_date opening sc = Ok rows /\
      (forall n r,
          nth_error rows n = Some r ->
          ar_collections r
          =~ ar_collections_spec (init historical_data) (week_start r) n
               (adj_collections adj)) /\
      (forall r,
          nth_error rows 0 = Some r ->
          ar_collections r
          =~ (Fin (adj_collections adj)
              * (_forecast_revenue (init historical_data) (week_start r)
                 * Fin 0.30))%num) /\
      map collection_fraction [0; 1; 2; 3; 4]%nat = [0.30; 0.40; 0.20; 0.08; 0.02]%Q.
Proof.
  intros data start ob sc Hsc.
  destruct (generate_forecast_known (init data) start ob sc Hsc) as (adj & Hadj & Hgen).
  eexists; exists adj. split; [exact Hadj|]. split; [exact Hgen|].
  assert (Hrow : forall n r,
            nth_error (forecast_loop (init data) adj sc
                         (enumerate (date_range start 13)) (Fin ob)) n = Some r ->
            ar_collections r
            =~ ar_collections_spec (init data) (week_start r) n (adj_collections adj)).
  { intros n r Hn.
    apply forecast_loop_nth in Hn. destruct Hn as (i & w & b' & Hn & ->).
    unfold enumerate in Hn. rewrite enumerate_from_nth in Hn.
    destruct (nth_error (date_range start 13) n) as [w'|]; [|discriminate].
    simpl in Hn. injection Hn as <- <-.
    apply forecast_ar_collections_spec. }
  split; [exact Hrow|]. split; [|reflexivity].
  intros r Hr. apply Hrow in Hr.
  eapply same_num_trans; [exact Hr|].
  unfold ar_collections_spec.
  cbn [map filter Nat.leb collection_fraction nsum fold_right].
  replace (week_start r - timedelta_weeks (Z.of_nat 0)) with (week_start r)
    by (unfold timedelta_weeks, timedelta_days; simpl; lia).
  destruct (_forecast_revenue (init data) (week_start r)); cbn; [ring | exact I].
Qed.

Lemma ar_collections_lagged_witness :
  In "base" known_scenarios /\
  exists rows adj,
    dict_get scenario_adjustments "base" = Some adj /\
    generate_forecast (init sample_history) monday_2024_01_01 500000 "base"
    = Ok rows /\
    (forall n r,
        nth_error rows n = Some r ->
        ar_collections r
        =~ ar_collections_spec (init sample_history) (week_start r) n
             (adj_collections adj)) /\
    (forall r,
        nth_error rows 0 = Some r ->
        ar_collections r
        =~ (Fin (adj_collections adj)
            * (_forecast_revenue (init sample_history) (week_start r)
               * Fin 0.30))%num) /\
    map collection_fraction [0; 1; 2; 3; 4]%nat = [0.30; 0.40; 0.20; 0.08; 0.02]%Q.
Proof.
  assert (H : In "base" known_scenarios) by (simpl; auto).
  split; [exact H|].
  exact (ar_collections_lagged sample_history monday_2024_01_01 500000 "base" H).
Defined.

(* ================================================================== *)
(** ** Missing categories *)

Section MissingCategories.

Variable self : CashFlowForecaster.

(** Without AR Collections rows, and with them, the collection pattern is
    the built-in one. *)
Lemma collection_patterns_default (historical_data : list Transaction) :
  collection_patterns (init historical_data)
  = mkCollectionPatterns 0.30 0.40 0.20 0.08 0.02.
Proof. unfold init; cbn [collection_patterns]. apply calculate_collection_patterns_const. Qed.

(** Without Payroll rows, the payroll of an even ISO week is 50000. *)
Lemma forecast_payroll_default (w : Timestamp) :
  amounts_of "Payroll" (historical self) = [] ->
  _forecast_payroll self w = if Z.even (isoweek w) then Fin 50000 else Fin 0.
Proof.
  intros H. unfold _forecast_payroll. rewrite H.
  pose proof (Zmod_even (isoweek w)) as Hev.
  destruct (Z.even (isoweek w)); rewrite Hev; reflexivity.
Qed.

(** Without rows in the operating expense categories, the weekly operating
    expenses are 15000. *)
Lemma forecast_opex_default (w : Timestamp) :
  filter (fun r => isin (category r) opex_categories) (historical self) = [] ->
  _forecast_opex self w = Fin 15000.
Proof. intros H. unfold _forecast_opex. rewrite H. reflexivity. Qed.

Lemma forecast_payroll_fin (w : Timestamp) :
  exists q, _forecast_payroll self w = Fin q.
Proof.
  unfold _forecast_payroll.
  destruct (isoweek w mod 2 =? 0); [|eauto].
  destruct (mean (amounts_of "Payroll" (historical self))); simpl; eauto.
Qed.

Lemma forecast_opex_fin (w : Timestamp) :
  exists q, _forecast_opex self w = Fin q.
Proof.
  unfold _forecast_opex.
  destruct (mean _); simpl; eauto.
Qed.

(** Without Revenue rows the revenue estimate of every week is NaN: the
    fallback mean is taken over an empty selection too. *)
Lemma forecast_revenue_nan (w : Timestamp) :
  amounts_of "Revenue" (historical self) = [] ->
  _forecast_revenue self w = NaN.
Proof.
  intros H. unfold _forecast_revenue. rewrite H.
  assert (E : map amount
                (filter (fun r => (category r =? "Revenue")%string
                                  && (isoweek (date r) =? isoweek w))
                        (historical self)) = []).
  { unfold amounts_of in H. induction (historical self) as [|r l IH]; [reflexivity|].
    simpl in *. destruct (category r =? "Revenue")%string; simpl in *.
    - discriminate.
    - apply IH, H. }
  rewrite E. reflexivity.
Qed.

(** With a Revenue row the revenue estimate of every week is a number. *)
Lemma forecast_revenue_fin (w : Timestamp) :
  amounts_of "Revenue" (historical self) <> [] ->
  exists q, _forecast_revenue self w = Fin q.
Proof.
  intros H. unfold _forecast_revenue, weeks_from_start.
  destruct (mean_nonempty _ H) as [m Hm]. rewrite Hm.
  assert (Hd : exists d0, min_date (map date (historical self)) = Some d0).
  { unfold amounts_of in H. destruct (historical self); simpl; [|eauto].
    exfalso; apply H; reflexivity. }
  destruct Hd as [d0 ->].
  destruct (mean (map amount (filter _ (historical self)))); simpl; eauto.
Qed.

Lemma forecast_ar_collections_fin (w : Timestamp) (i : nat) :
  amounts_of "Revenue" (historical self) <> [] ->
  exists q, _forecast_ar_collections self w i = Fin q.
Proof.
  intros H. unfold _forecast_ar_collections.
  generalize (lag_rates self). generalize 0%Q.
  intros a l; revert a.
  induction l as [|[lag rate] l IH]; intros a; simpl; [eauto|].
  destruct (lag <=? i)%nat; [|apply IH].
  destruct (forecast_revenue_fin (w - timedelta_weeks (Z.of_nat lag)) H) as [q ->].
  simpl. apply IH.
Qed.

Lemma forecast_row_fin adj sc (i : nat) (w : Timestamp) (b : Q) :
  amounts_of "Revenue" (historical self) <> [] ->
  exists q, ending_balance (forecast_row self adj sc i w (Fin b)) = Fin q.
Proof.
  intros H. unfold forecast_row; cbn [ending_balance].
  destruct (forecast_revenue_fin w H) as [r ->].
  destruct (forecast_ar_collections_fin w i H) as [a ->].
  destruct (forecast_payroll_fin w) as [p ->].
  destruct (forecast_opex_fin w) as [o ->].
  simpl. eauto.
Qed.

Lemma forecast_loop_fin adj sc (ws : list (nat * Timestamp)) :
  amounts_of "Revenue" (historical self) <> [] ->
  forall b, Forall (fun r => exists q, ending_balance r = Fin q)
                   (forecast_loop self adj sc ws (Fin b)).
Proof.
  intros H. induction ws as [|[i w] ws IH]; intros b;
    cbn [forecast_loop]; [constructor|].
  destruct (forecast_row_fin adj sc i w b H) as [q Hq].
  constructor; [eauto|]. rewrite Hq. apply IH.
Qed.

End MissingCategories.

(** C8. The code at a history with Payroll rows and no Revenue row:
    [generate_forecast] returns its 13 rows, with payroll taken from the
    history and operating expenses at the default 15000, and the revenue,
    the AR collections and the ending balance of every row are NaN; no
    default stands in for the missing Revenue category. *)
Theorem missing_revenue_gives_nan :
  exists rows,
    generate_forecast (init payroll_only_history) monday_2024_01_01 500000 "base"
    = Ok rows /\
    List.length rows = 13%nat /\
    Forall (fun r => revenue r = NaN /\ ar_collections r = NaN /\
                     ending_balance r = NaN /\
                     operating_expenses r =~ Fin 15000 /\
                     (payroll r =~ Fin 55000 \/ payroll r =~ Fin 0)) rows.
Proof.
  eexists. split; [reflexivity|]. split; [reflexivity|].
  vm_compute.
  repeat (apply Forall_cons || apply Forall_nil);
    repeat split; solve [left; reflexivity | right; reflexivity].
Qed.

(* ================================================================== *)
(** ** Sensitivity analysis *)

(** The table has ten rows whatever the base balance is: the five Revenue
    rows, then the five Collection Rate rows, each with
    ending_balance = base_ending * (1 + change * elasticity) and
    variance_from_base = ending_balance - base_ending. *)
Lemma sensitivity_analysis_rows (self : CashFlowForecaster)
    (start_date : Timestamp) (opening : Q) :
  exists last_row rows,
    nth_error (forecast_loop self (mkAdjustment 1.00 1.00 1.00) "base"
                 (enumerate (date_range start_date 13)) (Fin opening)) 12
    = Some last_row /\
    sensitivity_analysis self start_date opening = Ok rows /\
    rows = (map (sensitivity_row "Revenue" 1.5 (ending_balance last_row))
                tested_changes
            ++ map (sensitivity_row "Collection Rate" 0.8 (ending_balance last_row))
                tested_changes)%list /\
    List.length rows = 10%nat.
Proof.
  unfold sensitivity_analysis.
  replace (generate_forecast self start_date opening "base")
    with (Ok (forecast_loop self (mkAdjustment 1.00 1.00 1.00) "base"
                (enumerate (date_range start_date 13)) (Fin opening)))
    by reflexivity.
  unfold date_range. cbn [generate_range enumerate enumerate_from forecast_loop].
  unfold iloc_last.
  cbn [rev app nth_error].
  eexists; eexists. split; [reflexivity|]. split; [reflexivity|].
  split; reflexivity.
Qed.

Lemma sensitivity_row_fields (v : string) (e : Q) (b : num) (c : Q) :
  SensitivityRow.ending_balance (sensitivity_row v e b c)
  = (b * (Fin 1 + Fin c * Fin e))%num /\
  SensitivityRow.variance_from_base (sensitivity_row v e b c)
  = (SensitivityRow.ending_balance (sensitivity_row v e b c) - b)%num.
Proof. split; reflexivity. Qed.

(** A change of 0 leaves a finite base balance as it is. *)
Lemma sensitivity_row_zero_fin (v : string) (e base : Q) :
  SensitivityRow.variance_from_base (sensitivity_row v e (Fin base) 0) =~ Fin 0.
Proof. simpl. ring. Qed.

(** On a NaN base balance the variance of a change of 0 is NaN. *)
Lemma sensitivity_row_zero_nan (v : string) (e : Q) :
  SensitivityRow.variance_from_base (sensitivity_row v e NaN 0) = NaN.
Proof. reflexivity. Qed.

(** With a Revenue row in the history the base balance is a number and the
    two rows of change 0 have a variance of 0. *)
Lemma sensitivity_zero_change_with_revenue (historical_data : list Transaction)
    (start_date : Timestamp) (opening : Q) :
  amounts_of "Revenue" (historical (init historical_data)) <> [] ->
  exists rows r2 r7,
    sensitivity_analysis (init historical_data) start_date opening = Ok rows /\
    nth_error rows 2 = Some r2 /\ nth_error rows 7 = Some r7 /\
    SensitivityRow.change r2 = 0%Q /\ SensitivityRow.change r7 = 0%Q /\
    SensitivityRow.variance_from_base r2 =~ Fin 0 /\
    SensitivityRow.variance_from_base r7 =~ Fin 0.
Proof.
  intros H.
  destruct (sensitivity_analysis_rows (init historical_data) start_date opening)
    as (last_row & rows & Hlast & Hrows & -> & _).
  pose proof (forecast_loop_fin (init historical_data) (mkAdjustment 1.00 1.00 1.00)
                "base" (enumerate (date_range start_date 13)) H opening) as Hfin.
  rewrite Forall_forall in Hfin.
  destruct (Hfin last_row (nth_error_In _ _ Hlast)) as [base Hbase].
  rewrite Hbase in *.
  eexists; eexists; eexists. split; [exact Hrows|].
  split; [reflexivity|]. split; [reflexivity|].
  split; [reflexivity|]. split; [reflexivity|].
  split; apply sensitivity_row_zero_fin.
Qed.

(** C9. The code at a history with Payroll rows and no Revenue row:
    [sensitivity_analysis] returns its ten rows, five for Revenue then five
    for Collection Rate, with the changes -20%, -10%, 0%, +10%, +20% in each
    group; the base ending balance is NaN, and so are the ending balance
    and the variance from base of every row, the two rows of change 0
    included: their variance is not 0. *)
Theorem sensitivity_on_missing_revenue :
  exists rows,
    sensitivity_analysis (init payroll_only_history) monday_2024_01_01 500000
    = Ok rows /\
    map SensitivityRow.variable rows
    = ["Revenue"; "Revenue"; "Revenue"; "Revenue"; "Revenue";
       "Collection Rate"; "Collection Rate"; "Collection Rate";
       "Collection Rate"; "Collection Rate"] /\
    map SensitivityRow.change rows = (tested_changes ++ tested_changes)%list /\
    Forall (fun r => SensitivityRow.ending_balance r = NaN /\
                     SensitivityRow.variance_from_base r = NaN /\
                     ~ SensitivityRow.variance_from_base r =~ Fin 0) rows.
Proof.
  eexists. split; [vm_compute; reflexivity|].
  split; [reflexivity|]. split; [reflexivity|].
  repeat constructor; intros H; exact H.
Qed.

(* ================================================================== *)
(** ** Ordering of the scenarios *)

Local Open Scope Q_scope.

Section ScenarioOrder.

Variable self : CashFlowForecaster.
Hypothesis Hexp : nonneg_levels self.

Lemma forecast_payroll_nonneg (w : Timestamp) :
  exists p, _forecast_payroll self w = Fin p /\ 0 <= p.
Proof.
  destruct Hexp as [Hpay _].
  unfold _forecast_payroll.
  destruct (isoweek w mod 2 =? 0)%Z; [|exists 0; split; [reflexivity | lra]].
  destruct (mean (amounts_of "Payroll" (historical self))) as [q|] eqn:E; simpl.
  - exists q. split; [reflexivity|]. eapply mean_nonneg; eassumption.
  - exists 50000. split; [reflexivity | lra].
Qed.

Lemma groupby_week_sum_nonneg (rows : list HistRow) :
  Forall (fun r => 0 <= amount r) rows ->
  Forall (fun a => 0 <= a) (groupby_week_sum rows).
Proof.
  intros H. unfold groupby_week_sum.
  apply Forall_forall. intros a Ha.
  apply in_map_iff in Ha. destruct Ha as (k & <- & _).
  apply sumQ_nonneg.
  apply Forall_forall. intros x Hx.
  apply in_map_iff in Hx. destruct Hx as (r & <- & Hr).
  apply filter_In in Hr. destruct Hr as [Hr _].
  rewrite Forall_forall in H. apply H, Hr.
Qed.

Lemma forecast_opex_nonneg (w : Timestamp) :
  exists o, _forecast_opex self w = Fin o /\ 0 <= o.
Proof.
  destruct Hexp as [_ Hopex].
  unfold _forecast_opex. fold (opex_rows self).
  destruct (mean (groupby_week_sum (opex_rows self))) as [q|] eqn:E; simpl.
  - exists q. split; [reflexivity|].
    eapply mean_nonneg; [exact Hopex | exact E].
  - exists 15000. split; [reflexivity | lra].
Qed.

Lemma forecast_row_order (lo hi : Adjustment) (sl sh : string)
    (i : nat) (w : Timestamp) (bl bh : Q) :
  adj_le lo hi ->
  npos (_forecast_revenue self w) ->
  npos (_forecast_ar_collections self w i) ->
  bl <= bh ->
  exists el eh,
    ending_balance (forecast_row self lo sl i w (Fin bl)) = Fin el /\
    ending_balance (forecast_row self hi sh i w (Fin bh)) = Fin eh /\
    el <= eh.
Proof.
  intros (Hr & Hc & He) Hrev Har Hb.
  unfold forecast_row; cbn [ending_balance].
  destruct (_forecast_revenue self w) as [R|]; [|contradiction].
  destruct (_forecast_ar_collections self w i) as [A|]; [|contradiction].
  destruct (forecast_payroll_nonneg w) as (P & -> & HP).
  destruct (forecast_opex_nonneg w) as (O & -> & HO).
  simpl in Hrev, Har. cbn.
  eexists; eexists. split; [reflexivity|]. split; [reflexivity|].
  assert (H1 : R * adj_revenue lo <= R * adj_revenue hi)
    by (apply Qmult_le_l; assumption).
  assert (H2 : A * adj_collections lo <= A * adj_collections hi)
    by (apply Qmult_le_l; assumption).
  assert (H3 : P * adj_expenses hi <= P * adj_expenses lo).
  { rewrite !(Qmult_comm P). apply Qmult_le_compat_r; assumption. }
  assert (H4 : O * adj_expenses hi <= O * adj_expenses lo).
  { rewrite !(Qmult_comm O). apply Qmult_le_compat_r; assumption. }
  lra.
Qed.

Lemma forecast_loop_order (lo hi : Adjustment) (sl sh : string)
    (ws : list (nat * Timestamp)) :
  adj_le lo hi ->
  Forall (fun iw : nat * Timestamp =>
            npos (_forecast_revenue self (snd iw)) /\
            npos (_forecast_ar_collections self (snd iw) (fst iw))) ws ->
  forall bl bh n rl rh,
    bl <= bh ->
    nth_error (forecast_loop self lo sl ws (Fin bl)) n = Some rl ->
    nth_error (forecast_loop self hi sh ws (Fin bh)) n = Some rh ->
    nle (ending_balance rl) (ending_balance rh).
Proof.
  intros Hadj Hpos.
  induction Hpos as [|[i w] ws [Hrev Har] _ IH]; intros bl bh n rl rh Hb Hl Hh.
  - destruct n; discriminate.
  - cbn [forecast_loop] in Hl, Hh. simpl in Hrev, Har.
    destruct (forecast_row_order lo hi sl sh i w bl bh Hadj Hrev Har Hb)
      as (el & eh & Hel & Heh & Hle).
    destruct n as [|n]; cbn [nth_error] in Hl, Hh.
    + injection Hl as <-. injection Hh as <-. rewrite Hel, Heh. exact Hle.
    + rewrite Hel in Hl. rewrite Heh in Hh.
      eapply IH; eassumption.
Qed.

(** With positive estimates and no negative expense amount, the three
    scenarios are ordered, flat expenses or not. *)
Lemma scenario_order_general (start_date : Timestamp) (opening : Q) :
  positive_estimates self start_date ->
  scenario_ordered self start_date opening.
Proof.
  intros Hpos. unfold scenario_ordered, week13_ending.
  set (ws := enumerate (date_range start_date 13)) in *.
  replace (generate_forecast self start_date opening "best")
    with (Ok (forecast_loop self (mkAdjustment 1.15 1.10 0.95) "best" ws (Fin opening)))
    by reflexivity.
  replace (generate_forecast self start_date opening "base")
    with (Ok (forecast_loop self (mkAdjustment 1.00 1.00 1.00) "base" ws (Fin opening)))
    by reflexivity.
  replace (generate_forecast self start_date opening "worst")
    with (Ok (forecast_loop self (mkAdjustment 0.85 0.90 1.05) "worst" ws (Fin opening)))
    by reflexivity.
  assert (Hlen : forall adj sc,
            List.length (forecast_loop self adj sc ws (Fin opening)) = 13%nat).
  { intros. rewrite forecast_loop_length. unfold ws, enumerate.
    rewrite enumerate_from_length. apply generate_range_length. }
  assert (Hsome : forall adj sc,
            exists r, nth_error (forecast_loop self adj sc ws (Fin opening)) 12 = Some r).
  { intros adj sc.
    destruct (nth_error (forecast_loop self adj sc ws (Fin opening)) 12) eqn:E; [eauto|].
    apply nth_error_None in E. rewrite Hlen in E. lia. }
  destruct (Hsome (mkAdjustment 1.15 1.10 0.95) "best"%string) as [rb Hb].
  destruct (Hsome (mkAdjustment 1.00 1.00 1.00) "base"%string) as [rm Hm].
  destruct (Hsome (mkAdjustment 0.85 0.90 1.05) "worst"%string) as [rw Hw].
  rewrite Hb, Hm, Hw. cbn [option_map].
  split.
  - eapply (forecast_loop_order _ _ _ _ ws); [ | exact Hpos | apply Qle_refl | exact Hw | exact Hm].
    unfold adj_le; cbn; repeat split; lra.
  - eapply (forecast_loop_order _ _ _ _ ws); [ | exact Hpos | apply Qle_refl | exact Hm | exact Hb].
    unfold adj_le; cbn; repeat split; lra.
Qed.

End ScenarioOrder.

Lemma negative_payroll_positive_estimates :
  positive_estimates (init negative_payroll_history) monday_2024_01_01.
Proof.
  unfold positive_estimates, enumerate, date_range.
  cbn [generate_range enumerate_from].
  repeat (apply Forall_cons || apply Forall_nil);
    cbn [fst snd]; vm_compute; split; reflexivity.
Qed.

Lemma negative_payroll_held_flat : held_flat (init negative_payroll_history).
Proof.
  split.
  - exists (-1000000). vm_compute. repeat constructor.
  - exists 0. vm_compute. constructor.
Qed.


Lemma nonneg_expenses_levels (self : CashFlowForecaster) :
  nonneg_expenses self -> nonneg_levels self.
Proof.
  intros [Hpay Hopex]. split; [exact Hpay|].
  apply groupby_week_sum_nonneg. exact Hopex.
Qed.

Lemma flat_nonneg (p : Q) (l : list Q) :
  0 <= p -> Forall (fun a => a == p) l -> Forall (fun a => 0 <= a) l.
Proof.
  intros Hp H. eapply Forall_impl; [|exact H].
  intros a Ha. cbv beta in Ha. rewrite Ha. exact Hp.
Qed.

Lemma held_flat_nonneg_levels (self : CashFlowForecaster) :
  held_flat_nonneg self -> nonneg_levels self.
Proof.
  intros [(p & Hp & Hpay) (o & Ho & Hopex)].
  split; [exact (flat_nonneg p _ Hp Hpay) | exact (flat_nonneg o _ Ho Hopex)].
Qed.

Lemma flat_history_amounts : amounts_in_range flat_history.
Proof.
  split.
  - unfold flat_history, in_int64.
    repeat (apply Forall_cons || apply Forall_nil); cbn [t_amount];
      split; vm_compute; discriminate.
  - assert (E : groupby_week_sum (opex_rows (init flat_history)) = [50; 50]%Q)
      by (vm_compute; reflexivity).
    rewrite E. unfold in_int64.
    repeat (apply Forall_cons || apply Forall_nil); split; vm_compute; discriminate.
Defined.

Lemma flat_history_timestamps :
  timestamps_in_range flat_history monday_2024_01_01.
Proof.
  unfold timestamps_in_range. split; [|split; [|split]].
  - unfold flat_history.
    repeat (apply Forall_cons || apply Forall_nil); cbn [t_date];
      split; vm_compute; discriminate.
  - vm_compute; discriminate.
  - vm_compute; discriminate.
  - vm_compute. split; discriminate.
Defined.

Lemma flat_history_positive_estimates :
  positive_estimates (init flat_history) monday_2024_01_01.
Proof.
  unfold positive_estimates, enumerate, date_range.
  cbn [generate_range enumerate_from].
  repeat (apply Forall_cons || apply Forall_nil);
    cbn [fst snd]; vm_compute; split; reflexivity.
Defined.

Lemma flat_history_held_flat : held_flat_nonneg (init flat_history).
Proof.
  split.
  - exists 55000. split; [vm_compute; discriminate|].
    assert (E : amounts_of "Payroll" (historical (init flat_history))
                = [55000; 55000]%Q) by reflexivity.
    rewrite E. repeat constructor.
  - exists 50. split; [vm_compute; discriminate|].
    assert (E : groupby_week_sum (opex_rows (init flat_history)) = [50; 50]%Q)
      by (vm_compute; reflexivity).
    rewrite E. repeat constructor.
Defined.



(* ================================================================== *)
(** ** Further properties of the forecast table *)

Local Open Scope Z_scope.

Ltac num_cases :=
  repeat match goal with
         | x : num |- _ => destruct x
         end;
  cbn in *; try exact I; try contradiction.

Lemma nadd_assoc_same (x y z : num) : ((x + y) + z)%num =~ (x + (y + z))%num.
Proof. num_cases. ring. Qed.

Lemma nadd_0_r_same (x : num) : (x + Fin 0)%num =~ x.
Proof. num_cases. ring. Qed.

Lemma generate_forecast_length self start ob sc rows :
  generate_forecast self start ob sc = Ok rows -> List.length rows = 13%nat.
Proof.
  unfold generate_forecast.
  destruct (dict_get scenario_adjustments sc) as [adj|]; [|discriminate].
  intros H.
  assert (E : forecast_loop self adj sc (enumerate (date_range start 13)) (Fin ob)
              = rows) by congruence.
  rewrite <- E.
  rewrite forecast_loop_length. unfold enumerate.
  rewrite enumerate_from_length. apply generate_range_length.
Qed.

Section TableFacts.

Variable self : CashFlowForecaster.

Lemma forecast_loop_telescope adj sc (ws : list (nat * Timestamp)) :
  forall b n r,
    nth_error (forecast_loop self adj sc ws b) n = Some r ->
    ending_balance r
    =~ (b + nsum (map net_cash_flow
                      (firstn (S n) (forecast_loop self adj sc ws b))))%num.
Proof.
  induction ws as [|[i w] ws IH]; intros b n r H.
  - destruct n; discriminate.
  - cbn [forecast_loop] in *.
    set (row := forecast_row self adj sc i w b) in *.
    assert (He : ending_balance row = (b + net_cash_flow row)%num) by reflexivity.
    destruct n as [|n]; cbn [nth_error] in H.
    + injection H as <-. rewrite He.
      cbn [firstn map nsum fold_right].
      generalize (net_cash_flow row); intros x.
      apply same_num_sym. apply nadd_same; [apply same_num_refl|].
      apply nadd_0_r_same.
    + apply IH in H.
      eapply same_num_trans; [exact H|].
      rewrite He. cbn [firstn map nsum fold_right].
      apply nadd_assoc_same.
Qed.

Lemma forecast_loop_shift adj sc (d : Q) (ws : list (nat * Timestamp)) :
  forall b b' n r r',
    b' =~ (b + Fin d)%num ->
    nth_error (forecast_loop self adj sc ws b) n = Some r ->
    nth_error (forecast_loop self adj sc ws b') n = Some r' ->
    same_flows r r' /\
    opening_balance r' =~ (opening_balance r + Fin d)%num /\
    ending_balance r' =~ (ending_balance r + Fin d)%num.
Proof.
  induction ws as [|[i w] ws IH]; intros b b' n r r' Hb H H'.
  - destruct n; discriminate.
  - cbn [forecast_loop] in *.
    assert (He : ending_balance (forecast_row self adj sc i w b')
                 =~ (ending_balance (forecast_row self adj sc i w b) + Fin d)%num).
    { cbn [forecast_row ending_balance].
      match goal with
      | |- (_ + ?x)%num =~ _ => generalize x
      end.
      intros x. num_cases. rewrite Hb. ring. }
    destruct n as [|n]; cbn [nth_error] in H, H'.
    + injection H as <-. injection H' as <-.
      split; [repeat split|]. split; [exact Hb | exact He].
    + eapply IH; eassumption.
Qed.

Lemma forecast_loop_scaled adj sc sc0 (ws : list (nat * Timestamp)) :
  forall b b0 n r r0,
    nth_error (forecast_loop self (mkAdjustment 1.00 1.00 1.00) sc0 ws b0) n
    = Some r0 ->
    nth_error (forecast_loop self adj sc ws b) n = Some r ->
    scaled_by adj r0 r.
Proof.
  induction ws as [|[i w] ws IH]; intros b b0 n r r0 H0 H.
  - destruct n; discriminate.
  - cbn [forecast_loop] in *.
    destruct n as [|n]; cbn [nth_error] in H0, H.
    + injection H0 as <-. injection H as <-.
      unfold scaled_by, forecast_row.
      cbn [week_number week_start week_end revenue ar_collections cogs payroll
           operating_expenses adj_revenue adj_collections adj_expenses].
      generalize (_forecast_revenue self w) (_forecast_ar_collections self w i)
                 (_forecast_payroll self w) (_forecast_opex self w).
      intros R A P O.
      repeat split; num_cases; ring.
    + eapply IH; eassumption.
Qed.

End TableFacts.

(** X1. Every ending balance is the opening balance of the call plus the
    net cash flows of the rows up to and including its own. *)
Theorem ending_balance_accumulates :
  forall (historical_data : list Transaction) (start_date : Timestamp)
         (opening : Q) (sc : string),
    In sc known_scenarios ->
    exists rows,
      generate_forecast (init historical_data) start_date opening sc = Ok rows /\
      forall n r,
        nth_error rows n = Some r ->
        ending_balance r
        =~ (Fin opening + nsum (map net_cash_flow (firstn (S n) rows)))%num.
Proof.
  intros data start ob sc Hsc.
  destruct (generate_forecast_known (init data) start ob sc Hsc) as (adj & _ & Hgen).
  eexists; split; [exact Hgen|].
  intros n r. apply forecast_loop_telescope.
Qed.

Lemma ending_balance_accumulates_witness :
  In "base" known_scenarios /\
  exists rows,
    generate_forecast (init sample_history) monday_2024_01_01 500000 "base"
    = Ok rows /\
    forall n r,
      nth_error rows n = Some r ->
      ending_balance r
      =~ (Fin 500000 + nsum (map net_cash_flow (firstn (S n) rows)))%num.
Proof.
  assert (H : In "base" known_scenarios) by (simpl; auto).
  split; [exact H|].
  exact (ending_balance_accumulates sample_history monday_2024_01_01 500000 "base" H).
Defined.

(** X2. Raising the opening balance by [d] leaves every flow of every row
    as it is and raises every opening and ending balance by [d]. *)
Theorem opening_balance_shift :
  forall (historical_data : list Transaction) (start_date : Timestamp)
         (opening d : Q) (sc : string),
    In sc known_scenarios ->
    exists rows rows',
      generate_forecast (init historical_data) start_date opening sc = Ok rows /\
      generate_forecast (init historical_data) start_date (opening + d)%Q sc
      = Ok rows' /\
      forall n r r',
        nth_error rows n = Some r -> nth_error rows' n = Some r' ->
        same_flows r r' /\
        opening_balance r' =~ (opening_balance r + Fin d)%num /\
        ending_balance r' =~ (ending_balance r + Fin d)%num.
Proof.
  intros data start ob d sc Hsc.
  destruct (generate_forecast_known (init data) start ob sc Hsc) as (adj & Hadj & Hgen).
  destruct (generate_forecast_known (init data) start (ob + d)%Q sc Hsc)
    as (adj' & Hadj' & Hgen').
  assert (adj' = adj) by congruence. subst adj'.
  eexists; eexists. split; [exact Hgen|]. split; [exact Hgen'|].
  intros n r r'. apply forecast_loop_shift. cbn. reflexivity.
Qed.

Lemma opening_balance_shift_witness :
  In "worst" known_scenarios /\
  exists rows rows',
    generate_forecast (init sample_history) monday_2024_01_01 500000 "worst"
    = Ok rows /\
    generate_forecast (init sample_history) monday_2024_01_01 (500000 + 2500)%Q
      "worst" = Ok rows' /\
    forall n r r',
      nth_error rows n = Some r -> nth_error rows' n = Some r' ->
      same_flows r r' /\
      opening_balance r' =~ (opening_balance r + Fin 2500)%num /\
      ending_balance r' =~ (ending_balance r + Fin 2500)%num.
Proof.
  assert (H : In "worst" known_scenarios) by (simpl; auto).
  split; [exact H|].
  exact (opening_balance_shift sample_history monday_2024_01_01 500000 2500 "worst" H).
Defined.

(** X3. Row by row, the forecast of a scenario is the base forecast with the
    revenue and the cogs times the revenue multiplier, the AR collections
    times the collections multiplier, the payroll and the operating
    expenses times the expense multiplier, on the same weeks. *)
Theorem scenario_scales_base :
  forall (historical_data : list Transaction) (start_date : Timestamp)
         (opening : Q) (sc : string),
    In sc known_scenarios ->
    exists adj rows rows0,
      dict_get scenario_adjustments sc = Some adj /\
      generate_forecast (init historical_data) start_date opening sc = Ok rows /\
      generate_forecast (init historical_data) start_date opening "base"
      = Ok rows0 /\
      forall n r0 r,
        nth_error rows0 n = Some r0 -> nth_error rows n = Some r ->
        scaled_by adj r0 r.
Proof.
  intros data start ob sc Hsc.
  destruct (generate_forecast_known (init data) start ob sc Hsc) as (adj & Hadj & Hgen).
  exists adj. eexists; eexists. split; [exact Hadj|]. split; [exact Hgen|].
  split; [reflexivity|].
  intros n r0 r H0 H. eapply forecast_loop_scaled; eassumption.
Qed.

Lemma scenario_scales_base_witness :
  In "best" known_scenarios /\
  exists adj rows rows0,
    dict_get scenario_adjustments "best" = Some adj /\
    generate_forecast (init sample_history) monday_2024_01_01 500000 "best"
    = Ok rows /\
    generate_forecast (init sample_history) monday_2024_01_01 500000 "base"
    = Ok rows0 /\
    forall n r0 r,
      nth_error rows0 n = Some r0 -> nth_error rows n = Some r ->
      scaled_by adj r0 r.
Proof.
  assert (H : In "best" known_scenarios) by (simpl; auto).
  split; [exact H|].
  exact (scenario_scales_base sample_history monday_2024_01_01 500000 "best" H).
Defined.

(* ================================================================== *)
(** ** Runway *)

Lemma below_mono (x : num) (t t' : Q) :
  (t <= t')%Q -> below x t = true -> below x t' = true.
Proof.
  intros Ht. destruct x as [a|]; simpl; [|discriminate].
  intros H. apply negb_true_iff in H. apply negb_true_iff.
  destruct (Qle_bool t' a) eqn:E; [|reflexivity].
  apply Qle_bool_iff in E.
  assert (Hta : (t <= a)%Q) by (eapply Qle_trans; eassumption).
  apply Qle_bool_iff in Hta. congruence.
Qed.

(** The rows below the threshold: none, or a first one after rows that are
    not below. *)
Lemma first_below_split (t : Q) (df : list ForecastWeek) :
  (filter (fun r => below (ending_balance r) t) df = [] /\
   Forall (not_below t) df) \/
  exists pre r post,
    df = (pre ++ r :: post)%list /\ Forall (not_below t) pre /\
    below (ending_balance r) t = true /\
    filter (fun r => below (ending_balance r) t) df
    = r :: filter (fun r => below (ending_balance r) t) post.
Proof.
  induction df as [|x df IH].
  - left. split; [reflexivity | constructor].
  - simpl. destruct (below (ending_balance x) t) eqn:E.
    + right. exists [], x, df. repeat split; auto.
    + destruct IH as [[Hf Hall] | (pre & r & post & -> & Hpre & Hr & Hf)].
      * left. split; [exact Hf|]. constructor; assumption.
      * right. exists (x :: pre), r, post.
        split; [reflexivity|]. split; [constructor; assumption|].
        split; [exact Hr | exact Hf].
Qed.

Lemma calculate_runway_first (t : Q) (pre post : list ForecastWeek)
    (r : ForecastWeek) :
  Forall (not_below t) pre ->
  below (ending_balance r) t = true ->
  calculate_runway (pre ++ r :: post) t
  = (week_number r, "Week " ++ string_of_Z (week_number r)).
Proof.
  intros Hpre Hr. unfold calculate_runway.
  induction Hpre as [|x pre Hx _ IH]; simpl.
  - rewrite Hr. reflexivity.
  - unfold not_below in Hx. rewrite Hx. exact IH.
Qed.

Lemma calculate_runway_none (t : Q) (df : list ForecastWeek) :
  Forall (not_below t) df ->
  calculate_runway df t = (13, "Beyond forecast period").
Proof.
  intros H. unfold calculate_runway.
  induction H as [|x df Hx _ IH]; simpl; [reflexivity|].
  unfold not_below in Hx. rewrite Hx. exact IH.
Qed.

(** X5. [calculate_runway] answers "Beyond forecast period" exactly when no
    ending balance of the table is below the threshold, a NaN balance
    counting as not below; its week is then 13. *)
Theorem runway_beyond_iff :
  forall (forecast_df : list ForecastWeek) (burn_threshold : Q),
    (snd (calculate_runway forecast_df burn_threshold) = "Beyond forecast period"
     <-> Forall (not_below burn_threshold) forecast_df) /\
    (Forall (not_below burn_threshold) forecast_df <->
     calculate_runway forecast_df burn_threshold = (13, "Beyond forecast period")).
Proof.
  intros df t.
  assert (A : snd (calculate_runway df t) = "Beyond forecast period" ->
              Forall (not_below t) df).
  { destruct (first_below_split t df) as [[_ Hall] | (pre & r & post & -> & Hpre & Hr & _)];
      [intros _; exact Hall|].
    rewrite (calculate_runway_first t pre post r Hpre Hr). simpl. discriminate. }
  split; split.
  - exact A.
  - intros H. rewrite (calculate_runway_none t df H). reflexivity.
  - apply calculate_runway_none.
  - intros H. apply A. rewrite H. reflexivity.
Qed.

(** X6. When a row is below the threshold and no row before it is,
    [calculate_runway] returns the week number of that row and the label
    "Week " followed by that number, whatever the rows after it hold. *)
Theorem runway_first_breach :
  forall (pre post : list ForecastWeek) (r : ForecastWeek) (burn_threshold : Q),
    Forall (not_below burn_threshold) pre ->
    below (ending_balance r) burn_threshold = true ->
    calculate_runway (pre ++ r :: post) burn_threshold
    = (week_number r, "Week " ++ string_of_Z (week_number r)).
Proof.
  intros pre post r t. apply calculate_runway_first.
Qed.

Section RunwayOfForecast.

Variable self : CashFlowForecaster.
Variable start_date : Timestamp.
Variable opening : Q.
Variable sc : string.
Variable rows : list ForecastWeek.
Hypothesis Hgen : generate_forecast self start_date opening sc = Ok rows.

Lemma forecast_week_number_nth (n : nat) (r : ForecastWeek) :
  nth_error rows n = Some r -> week_number r = Z.of_nat n + 1.
Proof.
  unfold generate_forecast in Hgen.
  destruct (dict_get scenario_adjustments sc) as [adj|]; [|discriminate].
  assert (E : forecast_loop self adj sc (enumerate (date_range start_date 13))
                (Fin opening) = rows) by congruence.
  rewrite <- E. intros H.
  apply forecast_loop_nth in H. destruct H as (i & w & b' & Hn & ->).
  unfold enumerate in Hn. rewrite enumerate_from_nth in Hn.
  destruct (nth_error (date_range start_date 13) n); [|discriminate].
  simpl in Hn. injection Hn as <- _. reflexivity.
Qed.

(** What [calculate_runway] returns on a table of [generate_forecast]. *)
Lemma runway_on_forecast (t : Q) :
  (calculate_runway rows t = (13, "Beyond forecast period") /\
   Forall (not_below t) rows) \/
  exists n r,
    (n < 13)%nat /\ nth_error rows n = Some r /\
    below (ending_balance r) t = true /\
    (forall m r', (m < n)%nat -> nth_error rows m = Some r' -> not_below t r') /\
    calculate_runway rows t
    = (Z.of_nat n + 1, "Week " ++ string_of_Z (Z.of_nat n + 1)).
Proof.
  destruct (first_below_split t rows) as [[_ Hall] | (pre & r & post & E & Hpre & Hr & _)].
  - left. split; [apply calculate_runway_none; exact Hall | exact Hall].
  - right. exists (List.length pre), r.
    assert (Hn : nth_error rows (List.length pre) = Some r).
    { rewrite E. rewrite nth_error_app2 by lia.
      rewrite Nat.sub_diag. reflexivity. }
    pose proof (generate_forecast_length _ _ _ _ _ Hgen) as Hlen.
    assert (Hlt : (List.length pre < 13)%nat).
    { rewrite <- Hlen. apply nth_error_Some. congruence. }
    split; [exact Hlt|]. split; [exact Hn|]. split; [exact Hr|]. split.
    + intros m r' Hm Hr'. rewrite E in Hr'.
      rewrite nth_error_app1 in Hr' by exact Hm.
      rewrite Forall_forall in Hpre. apply Hpre.
      eapply nth_error_In; exact Hr'.
    + rewrite <- (forecast_week_number_nth _ _ Hn).
      rewrite E. apply calculate_runway_first; assumption.
Qed.

Lemma runway_week_mono (t t' : Q) :
  (t <= t')%Q ->
  fst (calculate_runway rows t') <= fst (calculate_runway rows t).
Proof.
  intros Ht.
  destruct (runway_on_forecast t') as [[E' Hall'] | (n' & r' & Hn' & Hr' & Hb' & Hpre' & E')];
    destruct (runway_on_forecast t) as [[E Hall] | (n & r & Hn & Hr & Hb & Hpre & E)];
    rewrite E, E'; cbn [fst]; try lia.
  - (* a breach under [t] is one under [t'] *)
    exfalso. rewrite Forall_forall in Hall'.
    specialize (Hall' r (nth_error_In _ _ Hr)). unfold not_below in Hall'.
    rewrite (below_mono _ t t' Ht Hb) in Hall'. discriminate.
  - (* a breach under both *)
    destruct (Nat.le_gt_cases n' n) as [Hle | Hgt]; [lia|].
    exfalso. specialize (Hpre' n r Hgt Hr). unfold not_below in Hpre'.
    rewrite (below_mono _ t t' Ht Hb) in Hpre'. discriminate.
Qed.

End RunwayOfForecast.

(** X7. On a table of [generate_forecast] the week that [calculate_runway]
    returns lies in 1..13.  Either no ending balance is below the threshold
    and the answer is (13, "Beyond forecast period"), or the answer is
    (n, "Week n") where row n is the first whose ending balance is below the
    threshold. *)
Theorem runway_of_forecast :
  forall (self : CashFlowForecaster) (start_date : Timestamp) (opening : Q)
         (sc : string) (burn_threshold : Q),
    In sc known_scenarios ->
    exists rows,
      generate_forecast self start_date opening sc = Ok rows /\
      1 <= fst (calculate_runway rows burn_threshold) <= 13 /\
      ((calculate_runway rows burn_threshold = (13, "Beyond forecast period") /\
        Forall (not_below burn_threshold) rows) \/
       exists n r,
         (n < 13)%nat /\ nth_error rows n = Some r /\
         week_number r = Z.of_nat n + 1 /\
         below (ending_balance r) burn_threshold = true /\
         (forall m r', (m < n)%nat -> nth_error rows m = Some r' ->
                       not_below burn_threshold r') /\
         calculate_runway rows burn_threshold
         = (Z.of_nat n + 1, "Week " ++ string_of_Z (Z.of_nat n + 1))).
Proof.
  intros self start ob sc t Hsc.
  destruct (generate_forecast_known self start ob sc Hsc) as (adj & _ & Hgen).
  eexists; split; [exact Hgen|].
  destruct (runway_on_forecast self start ob sc _ Hgen t)
    as [[E Hall] | (n & r & Hn & Hr & Hb & Hpre & E)].
  - split; [rewrite E; cbn; lia|]. left. split; assumption.
  - split; [rewrite E; cbn [fst]; lia|]. right.
    exists n, r. repeat split; try assumption.
    eapply forecast_week_number_nth; eassumption.
Qed.

Lemma runway_of_forecast_witness :
  In "worst" known_scenarios /\
  exists rows,
    generate_forecast (init sample_history) monday_2024_01_01 500000 "worst"
    = Ok rows /\
    1 <= fst (calculate_runway rows 520000) <= 13 /\
    ((calculate_runway rows 520000 = (13, "Beyond forecast period") /\
      Forall (not_below 520000) rows) \/
     exists n r,
       (n < 13)%nat /\ nth_error rows n = Some r /\
       week_number r = Z.of_nat n + 1 /\
       below (ending_balance r) 520000 = true /\
       (forall m r', (m < n)%nat -> nth_error rows m = Some r' ->
                     not_below 520000 r') /\
       calculate_runway rows 520000
       = (Z.of_nat n + 1, "Week " ++ string_of_Z (Z.of_nat n + 1))).
Proof.
  assert (H : In "worst" known_scenarios) by (simpl; auto).
  split; [exact H|].
  exact (runway_of_forecast (init sample_history) monday_2024_01_01 500000
           "worst" 520000 H).
Defined.

(** X8. On a table of [generate_forecast], raising the threshold never
    moves the week of the runway later. *)
Theorem runway_threshold_monotone :
  forall (self : CashFlowForecaster) (start_date : Timestamp) (opening : Q)
         (sc : string) (t t' : Q),
    In sc known_scenarios ->
    (t <= t')%Q ->
    exists rows,
      generate_forecast self start_date opening sc = Ok rows /\
      fst (calculate_runway rows t') <= fst (calculate_runway rows t).
Proof.
  intros self start ob sc t t' Hsc Ht.
  destruct (generate_forecast_known self start ob sc Hsc) as (adj & _ & Hgen).
  eexists; split; [exact Hgen|].
  eapply runway_week_mono; [exact Hgen | exact Ht].
Qed.

Lemma runway_threshold_monotone_witness :
  In "base" known_scenarios /\
  (50000 <= 520000)%Q /\
  exists rows,
    generate_forecast (init sample_history) monday_2024_01_01 500000 "base"
    = Ok rows /\
    fst (calculate_runway rows 520000) <= fst (calculate_runway rows 50000).
Proof.
  assert (H : In "base" known_scenarios) by (simpl; auto).
  assert (Ht : (50000 <= 520000)%Q) by (unfold Qle; simpl; lia).
  split; [exact H|]. split; [exact Ht|].
  exact (runway_threshold_monotone (init sample_history) monday_2024_01_01 500000
           "base" 50000 520000 H Ht).
Defined.

Lemma runway_first_breach_witness :
  Forall (not_below 100000) [sample_row 500000] /\
  below (ending_balance (sample_row 0)) 100000 = true /\
  calculate_runway ([sample_row 500000] ++ sample_row 0 :: [sample_row 500000])
    100000
  = (week_number (sample_row 0), "Week " ++ string_of_Z (week_number (sample_row 0))).
Proof.
  assert (H1 : Forall (not_below 100000) [sample_row 500000])
    by (constructor; [vm_compute; reflexivity | constructor]).
  assert (H2 : below (ending_balance (sample_row 0)) 100000 = true)
    by (vm_compute; reflexivity).
  split; [exact H1|]. split; [exact H2|].
  exact (runway_first_breach [sample_row 500000] [sample_row 500000]
           (sample_row 0) 100000 H1 H2).
Defined.

(* ================================================================== *)
(** ** Histories with and without revenue *)

Section RevenuePresence.

Variable self : CashFlowForecaster.

Lemma forecast_ar_collections_nan (w : Timestamp) (i : nat) :
  amounts_of "Revenue" (historical self) = [] ->
  _forecast_ar_collections self w i = NaN.
Proof.
  intros H. unfold _forecast_ar_collections, lag_rates.
  cbn [fold_left Nat.leb].
  rewrite !(forecast_revenue_nan self _ H).
  destruct i as [|[|[|[|i]]]]; reflexivity.
Qed.

Lemma forecast_row_nan adj sc (i : nat) (w : Timestamp) (b : num) :
  amounts_of "Revenue" (historical self) = [] ->
  let r := forecast_row self adj sc i w b in
  revenue r = NaN /\ ar_collections r = NaN /\ total_inflows r = NaN /\
  cogs r = NaN /\ total_outflows r = NaN /\ net_cash_flow r = NaN /\
  ending_balance r = NaN /\
  isna (payroll r) = false /\ isna (operating_expenses r) = false.
Proof.
  intros H. unfold forecast_row.
  cbn [revenue ar_collections total_inflows cogs total_outflows net_cash_flow
       ending_balance payroll operating_expenses].
  rewrite (forecast_revenue_nan self w H), (forecast_ar_collections_nan w i H).
  destruct (forecast_payroll_fin self w) as [p ->].
  destruct (forecast_opex_fin self w) as [o ->].
  destruct b; repeat split.
Qed.

Lemma forecast_loop_nan adj sc (ws : list (nat * Timestamp)) :
  amounts_of "Revenue" (historical self) = [] ->
  forall b r,
    In r (forecast_loop self adj sc ws b) ->
    revenue r = NaN /\ ar_collections r = NaN /\ total_inflows r = NaN /\
    cogs r = NaN /\ total_outflows r = NaN /\ net_cash_flow r = NaN /\
    ending_balance r = NaN /\
    isna (payroll r) = false /\ isna (operating_expenses r) = false.
Proof.
  intros H b r Hr. apply In_nth_error in Hr. destruct Hr as [n Hn].
  apply forecast_loop_nth in Hn. destruct Hn as (i & w & b' & _ & ->).
  apply forecast_row_nan. exact H.
Qed.

Lemma forecast_row_finite adj sc (i : nat) (w : Timestamp) (b : Q) :
  has_revenue self ->
  finite_row (forecast_row self adj sc i w (Fin b)) /\
  exists q, ending_balance (forecast_row self adj sc i w (Fin b)) = Fin q.
Proof.
  intros H. unfold finite_row, forecast_row.
  cbn [opening_balance revenue ar_collections total_inflows cogs total_outflows
       net_cash_flow ending_balance payroll operating_expenses].
  destruct (forecast_revenue_fin self w H) as [r ->].
  destruct (forecast_ar_collections_fin self w i H) as [a ->].
  destruct (forecast_payroll_fin self w) as [p ->].
  destruct (forecast_opex_fin self w) as [o ->].
  cbn. split; [repeat constructor | eauto].
Qed.

Lemma forecast_loop_finite adj sc (ws : list (nat * Timestamp)) :
  has_revenue self ->
  forall b, Forall finite_row (forecast_loop self adj sc ws (Fin b)).
Proof.
  intros H. induction ws as [|[i w] ws IH]; intros b;
    cbn [forecast_loop]; [constructor|].
  destruct (forecast_row_finite adj sc i w b H) as [Hfin [q Hq]].
  constructor; [exact Hfin|]. rewrite Hq. apply IH.
Qed.

End RevenuePresence.

Lemma sample_history_amounts : amounts_in_range sample_history.
Proof.
  split.
  - unfold sample_history, in_int64.
    repeat (apply Forall_cons || apply Forall_nil); cbn [t_amount];
      split; vm_compute; discriminate.
  - assert (E : groupby_week_sum (opex_rows (init sample_history)) = [])
      by reflexivity.
    rewrite E. constructor.
Defined.

(** X9. With at least one Revenue row in a history whose amounts and weekly
    totals of operating expenses lie within the 64-bit integer range, every
    amount of every row of the forecast is a number: no NaN appears in the
    table. *)
Theorem revenue_row_makes_table_finite :
  forall (historical_data : list Transaction) (start_date : Timestamp)
         (opening : Q) (sc : string),
    amounts_in_range historical_data ->
    has_revenue (init historical_data) ->
    In sc known_scenarios ->
    exists rows,
      generate_forecast (init historical_data) start_date opening sc = Ok rows /\
      Forall finite_row rows.
Proof.
  intros data start ob sc _ Hrev Hsc.
  destruct (generate_forecast_known (init data) start ob sc Hsc) as (adj & _ & Hgen).
  eexists; split; [exact Hgen|].
  apply forecast_loop_finite. exact Hrev.
Qed.

Lemma revenue_row_makes_table_finite_witness :
  amounts_in_range sample_history /\
  has_revenue (init sample_history) /\
  In "best" known_scenarios /\
  exists rows,
    generate_forecast (init sample_history) monday_2024_01_01 500000 "best"
    = Ok rows /\
    Forall finite_row rows.
Proof.
  assert (H1 : has_revenue (init sample_history)) by (vm_compute; discriminate).
  assert (H2 : In "best" known_scenarios) by (simpl; auto).
  split; [exact sample_history_amounts|]. split; [exact H1|]. split; [exact H2|].
  exact (revenue_row_makes_table_finite sample_history monday_2024_01_01
           500000 "best" sample_history_amounts H1 H2).
Defined.

(** X10. Without any Revenue row in the history, whatever else it holds,
    every row of every scenario has revenue, AR collections, total inflows,
    cogs, total outflows, net cash flow and ending balance NaN, while its
    payroll and operating expenses are numbers. *)
Theorem no_revenue_row_makes_table_nan :
  forall (self : CashFlowForecaster) (start_date : Timestamp) (opening : Q)
         (sc : string),
    amounts_of "Revenue" (historical self) = [] ->
    In sc known_scenarios ->
    exists rows,
      generate_forecast self start_date opening sc = Ok rows /\
      Forall (fun r =>
                revenue r = NaN /\ ar_collections r = NaN /\
                total_inflows r = NaN /\ cogs r = NaN /\
                total_outflows r = NaN /\ net_cash_flow r = NaN /\
                ending_balance r = NaN /\
                isna (payroll r) = false /\
                isna (operating_expenses r) = false) rows.
Proof.
  intros self start ob sc Hrev Hsc.
  destruct (generate_forecast_known self start ob sc Hsc) as (adj & _ & Hgen).
  eexists; split; [exact Hgen|].
  apply Forall_forall. intros r Hr.
  eapply forecast_loop_nan; eassumption.
Qed.

Lemma no_revenue_row_makes_table_nan_witness :
  amounts_of "Revenue" (historical (init payroll_only_history)) = [] /\
  In "worst" known_scenarios /\
  exists rows,
    generate_forecast (init payroll_only_history) monday_2024_01_01 500000 "worst"
    = Ok rows /\
    Forall (fun r =>
              revenue r = NaN /\ ar_collections r = NaN /\
              total_inflows r = NaN /\ cogs r = NaN /\
              total_outflows r = NaN /\ net_cash_flow r = NaN /\
              ending_balance r = NaN /\
              isna (payroll r) = false /\
              isna (operating_expenses r) = false) rows.
Proof.
  assert (H1 : amounts_of "Revenue" (historical (init payroll_only_history)) = [])
    by reflexivity.
  assert (H2 : In "worst" known_scenarios) by (simpl; auto).
  split; [exact H1|]. split; [exact H2|].
  exact (no_revenue_row_makes_table_nan (init payroll_only_history)
           monday_2024_01_01 500000 "worst" H1 H2).
Defined.

(** X11. Without any Revenue row in the history [calculate_runway] answers
    (13, "Beyond forecast period") on the forecast of every scenario and
    for every threshold: a NaN balance is never below a threshold. *)
Theorem no_revenue_runway_beyond :
  forall (self : CashFlowForecaster) (start_date : Timestamp) (opening : Q)
         (sc : string) (burn_threshold : Q),
    amounts_of "Revenue" (historical self) = [] ->
    In sc known_scenarios ->
    exists rows,
      generate_forecast self start_date opening sc = Ok rows /\
      calculate_runway rows burn_threshold = (13, "Beyond forecast period").
Proof.
  intros self start ob sc t Hrev Hsc.
  destruct (generate_forecast_known self start ob sc Hsc) as (adj & _ & Hgen).
  eexists; split; [exact Hgen|].
  apply calculate_runway_none.
  apply Forall_forall. intros r Hr.
  destruct (forecast_loop_nan self adj sc _ Hrev _ r Hr) as (_ & _ & _ & _ & _ & _ & He & _).
  unfold not_below. rewrite He. reflexivity.
Qed.

Lemma no_revenue_runway_beyond_witness :
  amounts_of "Revenue" (historical (init payroll_only_history)) = [] /\
  In "base" known_scenarios /\
  exists rows,
    generate_forecast (init payroll_only_history) monday_2024_01_01 500000 "base"
    = Ok rows /\
    calculate_runway rows 1000000000 = (13, "Beyond forecast period").
Proof.
  assert (H1 : amounts_of "Revenue" (historical (init payroll_only_history)) = [])
    by reflexivity.
  assert (H2 : In "base" known_scenarios) by (simpl; auto).
  split; [exact H1|]. split; [exact H2|].
  exact (no_revenue_runway_beyond (init payroll_only_history) monday_2024_01_01
           500000 "base" 1000000000 H1 H2).
Defined.

(* ================================================================== *)
(** ** Operating expenses *)

Section WeeklyTotals.

Local Open Scope Q_scope.

Lemma sumQ_map_ext {A : Type} (f g : A -> Q) (l : list A) :
  (forall x, f x == g x) -> sumQ (map f l) == sumQ (map g l).
Proof.
  intros H. induction l as [|x l IH]; simpl; [reflexivity|].
  rewrite H, IH. reflexivity.
Qed.

Lemma sumQ_map_plus {A : Type} (f g : A -> Q) (l : list A) :
  sumQ (map (fun x => f x + g x) l) == sumQ (map f l) + sumQ (map g l).
Proof.
  induction l as [|x l IH]; simpl; [reflexivity|].
  rewrite IH. ring.
Qed.

Lemma sumQ_indicator_out (k0 : Z) (a : Q) (keys : list Z) :
  ~ In k0 keys ->
  sumQ (map (fun k => if (k0 =? k)%Z then a else 0) keys) == 0.
Proof.
  induction keys as [|k keys IH]; simpl; intros H; [reflexivity|].
  destruct (Z.eqb_spec k0 k) as [-> | _]; [exfalso; apply H; auto|].
  rewrite IH by (intros Hin; apply H; auto). ring.
Qed.

Lemma sumQ_indicator_in (k0 : Z) (a : Q) (keys : list Z) :
  NoDup keys -> In k0 keys ->
  sumQ (map (fun k => if (k0 =? k)%Z then a else 0) keys) == a.
Proof.
  induction 1 as [|k keys Hk Hnd IH]; simpl; intros Hin; [contradiction|].
  destruct (Z.eqb_spec k0 k) as [-> | Hne].
  - rewrite sumQ_indicator_out by exact Hk. ring.
  - destruct Hin as [-> | Hin]; [congruence|].
    rewrite IH by exact Hin. ring.
Qed.

(** The weekly totals add up to the total of the rows. *)
Lemma weekly_totals_partition (keys : list Z) (rows : list HistRow) :
  NoDup keys ->
  (forall r, In r rows -> In (week r) keys) ->
  sumQ (map (fun k => sumQ (map amount (filter (fun r => (week r =? k)%Z) rows)))
            keys)
  == sumQ (map amount rows).
Proof.
  intros Hnd. induction rows as [|r rows IH]; intros Hin.
  - rewrite (sumQ_map_ext _ (fun _ => 0)) by (intros k; reflexivity).
    simpl. clear. induction keys as [|k keys IHk]; simpl; [reflexivity|].
    rewrite IHk. ring.
  - rewrite (sumQ_map_ext _
               (fun k => (if (week r =? k)%Z then amount r else 0)
                         + sumQ (map amount
                                   (filter (fun r => (week r =? k)%Z) rows)))).
    + rewrite sumQ_map_plus.
      rewrite sumQ_indicator_in by (auto; apply Hin; simpl; auto).
      rewrite IH by (intros r' Hr'; apply Hin; simpl; auto).
      simpl. reflexivity.
    + intros k. simpl. destruct (week r =? k)%Z; simpl; ring.
Qed.

Lemma groupby_week_sum_total (rows : list HistRow) :
  sumQ (groupby_week_sum rows) == sumQ (map amount rows).
Proof.
  unfold groupby_week_sum. apply weekly_totals_partition.
  - apply NoDup_nodup.
  - intros r Hr. apply nodup_In. apply in_map. exact Hr.
Qed.

End WeeklyTotals.

Lemma filter_map_comm {A B : Type} (f : A -> B) (p : B -> bool) (l : list A) :
  filter p (map f l) = map f (filter (fun x => p (f x)) l).
Proof.
  induction l as [|x l IH]; simpl; [reflexivity|].
  destruct (p (f x)); simpl; rewrite IH; reflexivity.
Qed.

Lemma init_opex_rows (historical_data : list Transaction) :
  opex_rows (init historical_data)
  = map (fun t => mkHistRow (t_date t) (t_category t) (t_amount t)
                            (t_payment_terms t) (to_period_W (t_date t)))
        (opex_input historical_data).
Proof.
  unfold opex_rows, opex_input, init. cbn [historical].
  apply filter_map_comm.
Qed.

Lemma forecast_opex_spec (historical_data : list Transaction) (w : Timestamp) :
  _forecast_opex (init historical_data) w =~ Fin (opex_spec historical_data).
Proof.
  unfold _forecast_opex. fold (opex_rows (init historical_data)).
  rewrite init_opex_rows.
  unfold opex_spec, opex_total, opex_week_count.
  destruct (opex_input historical_data) as [|t l]; [reflexivity|].
  set (mk := fun t => mkHistRow (t_date t) (t_category t) (t_amount t)
                                (t_payment_terms t) (to_period_W (t_date t))).
  set (rows := map mk (t :: l)).
  assert (Hweek : map week rows = map (fun t => to_period_W (t_date t)) (t :: l))
    by (unfold rows; rewrite map_map; reflexivity).
  assert (Hamount : map amount rows = map t_amount (t :: l))
    by (unfold rows; rewrite map_map; reflexivity).
  assert (Hlen : List.length (groupby_week_sum rows)
                 = List.length (nodup Z.eq_dec
                                  (map (fun t => to_period_W (t_date t)) (t :: l)))).
  { unfold groupby_week_sum. rewrite length_map, Hweek. reflexivity. }
  pose proof (groupby_week_sum_total rows) as Hsum. rewrite Hamount in Hsum.
  destruct (groupby_week_sum rows) as [|g gs] eqn:Eg.
  - exfalso.
    assert (Hin : In (to_period_W (t_date t))
                     (nodup Z.eq_dec
                        (map (fun t => to_period_W (t_date t)) (t :: l))))
      by (apply nodup_In; simpl; auto).
    destruct (nodup Z.eq_dec (map (fun t => to_period_W (t_date t)) (t :: l)));
      [contradiction | discriminate].
  - cbn [mean isna negb same_num]. rewrite Hlen, Hsum. reflexivity.
Qed.

Lemma mixed_history_amounts : amounts_in_range mixed_history.
Proof.
  split.
  - unfold mixed_history, sample_history, in_int64. cbn [app].
    repeat (apply Forall_cons || apply Forall_nil); cbn [t_amount];
      split; vm_compute; discriminate.
  - assert (E : groupby_week_sum (opex_rows (init mixed_history))
                = [21000; 3000]%Q) by (vm_compute; reflexivity).
    rewrite E. unfold in_int64.
    repeat (apply Forall_cons || apply Forall_nil); split; vm_compute; discriminate.
Defined.



(* ================================================================== *)
(** ** Revenue of a steady history *)

Section SteadyRevenue.

Local Open Scope Q_scope.

Lemma sumQ_const (c : Q) (l : list Q) :
  Forall (fun a => a == c) l ->
  sumQ l == c * inject_Z (Z.of_nat (List.length l)).
Proof.
  induction 1 as [|a l Ha _ IH]; simpl sumQ; simpl List.length.
  - simpl. ring.
  - rewrite Nat2Z.inj_succ. unfold Z.succ. rewrite inject_Z_plus.
    rewrite Ha, IH. ring.
Qed.

Lemma inject_length_nonzero {A : Type} (x : A) (l : list A) :
  ~ inject_Z (Z.of_nat (List.length (x :: l))) == 0.
Proof.
  unfold Qeq. simpl. lia.
Qed.

Lemma mean_const (c : Q) (l : list Q) :
  l <> [] -> Forall (fun a => a == c) l -> mean l =~ Fin c.
Proof.
  intros Hne Hall. destruct l as [|a l]; [congruence|].
  cbn [mean same_num]. rewrite (sumQ_const c _ Hall).
  field. apply inject_length_nonzero.
Qed.

Lemma sumQ_pos (a : Q) (l : list Q) :
  Forall (fun a => 0 < a) (a :: l) -> 0 < sumQ (a :: l).
Proof.
  intros H. inversion H as [|x l' Ha Hl]; subst.
  assert (Hnn : 0 <= sumQ l).
  { apply sumQ_nonneg. eapply Forall_impl; [|exact Hl].
    intros y Hy. apply Qlt_le_weak. exact Hy. }
  simpl. lra.
Qed.

Lemma mean_pos (l : list Q) :
  l <> [] -> Forall (fun a => 0 < a) l -> exists q, mean l = Fin q /\ 0 < q.
Proof.
  intros Hne Hall. destruct l as [|a l]; [congruence|].
  eexists. split; [reflexivity|].
  apply Qlt_shift_div_l.
  - unfold Qlt; simpl; lia.
  - rewrite Qmult_0_l. apply sumQ_pos. exact Hall.
Qed.

End SteadyRevenue.

Section RevenueBase.

Local Open Scope Q_scope.

Variable historical_data : list Transaction.

Lemma input_amounts_sub (c : string) (p : Transaction -> bool) (P : Q -> Prop) :
  Forall P (input_amounts historical_data c (fun _ => true)) ->
  Forall P (input_amounts historical_data c p).
Proof.
  unfold input_amounts.
  induction historical_data as [|t l IH]; simpl; [constructor|].
  destruct (t_category t =? c)%string; simpl; [|exact IH].
  intros H. inversion H; subst.
  destruct (p t); [constructor; auto | auto].
Qed.

Lemma input_amounts_nil_iff (c : string) (p : Transaction -> bool) :
  input_amounts historical_data c p = [] <->
  existsb (fun t => (t_category t =? c)%string && p t) historical_data = false.
Proof.
  unfold input_amounts.
  induction historical_data as [|t l IH]; simpl; [tauto|].
  destruct ((t_category t =? c)%string && p t); simpl; [|exact IH].
  split; discriminate.
Qed.

Lemma revenue_base_const (c : Q) (w : Timestamp) :
  revenue_constant historical_data c ->
  input_amounts historical_data "Revenue" (fun _ => true) <> [] ->
  revenue_base_spec historical_data w
  =~ Fin (if revenue_week_known historical_data w then c else c / 4).
Proof.
  intros Hc Hne. unfold revenue_base_spec, revenue_week_known.
  pose proof (input_amounts_sub "Revenue"
                (fun t => (isoweek (t_date t) =? isoweek w)%Z) _ Hc) as Hsub.
  pose proof (input_amounts_nil_iff "Revenue"
                (fun t => (isoweek (t_date t) =? isoweek w)%Z)) as Hnil.
  destruct (input_amounts historical_data "Revenue"
              (fun t => (isoweek (t_date t) =? isoweek w)%Z)) as [|a m].
  - rewrite (proj1 Hnil eq_refl).
    pose proof (mean_const c _ Hne Hc) as Hm.
    destruct (mean (input_amounts historical_data "Revenue" (fun _ => true)));
      cbn in *; [|contradiction].
    rewrite Hm. reflexivity.
  - destruct (existsb _ historical_data) eqn:E.
    + apply mean_const; [discriminate | exact Hsub].
    + exfalso. pose proof (proj2 Hnil eq_refl) as Habs. discriminate.
Qed.

Lemma revenue_base_pos (w : Timestamp) :
  revenue_positive historical_data ->
  input_amounts historical_data "Revenue" (fun _ => true) <> [] ->
  npos (revenue_base_spec historical_data w).
Proof.
  intros Hp Hne. unfold revenue_base_spec.
  pose proof (input_amounts_sub "Revenue"
                (fun t => (isoweek (t_date t) =? isoweek w)%Z) _ Hp) as Hsub.
  destruct (input_amounts historical_data "Revenue"
              (fun t => (isoweek (t_date t) =? isoweek w)%Z)) as [|a m].
  - destruct (mean_pos _ Hne Hp) as (q & -> & Hq).
    unfold ndiv, lift2, npos.
    apply Qlt_shift_div_l; [reflexivity | lra].
  - destruct (mean_pos (a :: m) ltac:(discriminate) Hsub) as (q & -> & Hq).
    exact Hq.
Qed.

Lemma growth_factor_pos (d0 w : Timestamp) :
  min_date (map t_date historical_data) = Some d0 ->
  (d0 <= w)%Z ->
  npos (growth_factor_spec historical_data w).
Proof.
  intros Hmin Hle. unfold growth_factor_spec, weeks_elapsed_spec.
  rewrite Hmin. cbn.
  assert (Hd : (0 <= days (w - d0))%Z).
  { unfold days. apply Z.div_pos; [lia | reflexivity]. }
  assert (HD : 0 <= inject_Z (days (w - d0))).
  { unfold Qle; simpl. lia. }
  set (D := inject_Z (days (w - d0))) in *.
  assert (H1 : 0 <= D / 7 / 52).
  { unfold Qdiv. apply Qmult_le_0_compat; [apply Qmult_le_0_compat|];
      try exact HD; unfold Qle; simpl; lia. }
  lra.
Qed.

Lemma npos_same (x y : num) : x =~ y -> npos y -> npos x.
Proof. destruct x, y; cbn; try tauto. intros ->. tauto. Qed.

Lemma npos_mul (x y : num) : npos x -> npos y -> npos (x * y)%num.
Proof.
  destruct x, y; cbn; try tauto. intros Hx Hy.
  apply Qmult_lt_0_compat; assumption.
Qed.

Lemma forecast_revenue_pos (d0 w : Timestamp) :
  revenue_positive historical_data ->
  input_amounts historical_data "Revenue" (fun _ => true) <> [] ->
  min_date (map t_date historical_data) = Some d0 ->
  (d0 <= w)%Z ->
  npos (_forecast_revenue (init historical_data) w).
Proof.
  intros Hp Hne Hmin Hle.
  eapply npos_same; [apply forecast_revenue_spec|].
  apply npos_mul; [apply revenue_base_pos; assumption|].
  eapply growth_factor_pos; eassumption.
Qed.

Lemma forecast_ar_collections_pos (d0 w : Timestamp) (i : nat) :
  revenue_positive historical_data ->
  input_amounts historical_data "Revenue" (fun _ => true) <> [] ->
  min_date (map t_date historical_data) = Some d0 ->
  (forall lag, (lag <= i)%nat -> (lag <= 4)%nat ->
               (d0 <= w - timedelta_weeks (Z.of_nat lag))%Z) ->
  npos (_forecast_ar_collections (init historical_data) w i).
Proof.
  intros Hp Hne Hmin Hlag.
  unfold _forecast_ar_collections. rewrite init_lag_rates.
  assert (Hrev : forall lag, (lag <= i)%nat -> (lag <= 4)%nat ->
            exists q, _forecast_revenue (init historical_data)
                        (w - timedelta_weeks (Z.of_nat lag))%Z = Fin q /\ 0 < q).
  { intros lag H1 H2.
    pose proof (forecast_revenue_pos d0 _ Hp Hne Hmin (Hlag lag H1 H2)) as H.
    destruct (_forecast_revenue (init historical_data)
                (w - timedelta_weeks (Z.of_nat lag))%Z) as [q|]; [eauto | contradiction]. }
  destruct i as [|[|[|[|i]]]];
    cbn [map fold_left Nat.leb collection_fraction];
    repeat match goal with
           | |- context [_forecast_revenue (init historical_data)
                           (w - timedelta_weeks (Z.of_nat ?k))%Z] =>
               let q := fresh "q" in
               let Hq := fresh "Hq" in
               let E := fresh "E" in
               destruct (Hrev k ltac:(lia) ltac:(lia)) as (q & E & Hq);
               rewrite E; clear E
           end;
    cbn; lra.
Qed.

End RevenueBase.

(** X13. When every Revenue amount of the history is the same [c], the
    revenue of a row is [c] times the growth factor and the revenue
    multiplier if the history has a Revenue row in the ISO week of the row,
    and a quarter of that if it has none: the weeks the history does not
    cover are forecast at 25%. *)
Theorem steady_revenue_quartered :
  forall (historical_data : list Transaction) (start_date : Timestamp)
         (opening : Q) (sc : string) (c : Q),
    revenue_constant historical_data c ->
    input_amounts historical_data "Revenue" (fun _ => true) <> [] ->
    In sc known_scenarios ->
    exists rows adj,
      dict_get scenario_adjustments sc = Some adj /\
      generate_forecast (init historical_data) start_date opening sc = Ok rows /\
      Forall (fun r =>
                revenue r
                =~ (Fin (if revenue_week_known historical_data (week_start r)
                         then c else c / 4)
                    * growth_factor_spec historical_data (week_start r)
                    * Fin (adj_revenue adj))%num) rows.
Proof.
  intros data start ob sc c Hc Hne Hsc.
  destruct (generate_forecast_known (init data) start ob sc Hsc) as (adj & Hadj & Hgen).
  eexists; exists adj. split; [exact Hadj|]. split; [exact Hgen|].
  apply Forall_forall. intros r Hr.
  apply In_nth_error in Hr. destruct Hr as [n Hn].
  apply forecast_loop_nth in Hn. destruct Hn as (i & w & b' & _ & ->).
  cbn [forecast_row revenue week_start].
  apply nmul_same; [|apply same_num_refl].
  eapply same_num_trans; [apply forecast_revenue_spec|].
  apply nmul_same; [|apply same_num_refl].
  apply revenue_base_const; assumption.
Qed.

Lemma steady_revenue_quartered_witness :
  revenue_constant sample_history 100000 /\
  input_amounts sample_history "Revenue" (fun _ => true) <> [] /\
  In "base" known_scenarios /\
  exists rows adj,
    dict_get scenario_adjustments "base" = Some adj /\
    generate_forecast (init sample_history) monday_2024_01_01 500000 "base"
    = Ok rows /\
    Forall (fun r =>
              revenue r
              =~ (Fin (if revenue_week_known sample_history (week_start r)
                       then 100000 else 100000 / 4)
                  * growth_factor_spec sample_history (week_start r)
                  * Fin (adj_revenue adj))%num) rows.
Proof.
  assert (H1 : revenue_constant sample_history 100000)
    by (vm_compute; repeat constructor).
  assert (H2 : input_amounts sample_history "Revenue" (fun _ => true) <> [])
    by (vm_compute; discriminate).
  assert (H3 : In "base" known_scenarios) by (simpl; auto).
  split; [exact H1|]. split; [exact H2|]. split; [exact H3|].
  exact (steady_revenue_quartered sample_history monday_2024_01_01 500000 "base"
           100000 H1 H2 H3).
Defined.

Lemma mixed_history_timestamps :
  timestamps_in_range mixed_history (midnight 19800).
Proof.
  unfold timestamps_in_range. split; [|split; [|split]].
  - unfold mixed_history, sample_history. cbn [app].
    repeat (apply Forall_cons || apply Forall_nil); cbn [t_date];
      split; vm_compute; discriminate.
  - vm_compute; discriminate.
  - vm_compute; discriminate.
  - vm_compute. split; discriminate.
Defined.

(** X14. For a history whose amounts and weekly totals of operating
    expenses lie within the 64-bit integer range and whose dates pandas can
    hold: when every Revenue amount is strictly positive, no Payroll or
    operating expense amount is negative and the start date is not before
    the earliest date of the history, the week-13 ending balance of 'best'
    is at least that of 'base', which is at least that of 'worst'. *)
Theorem scenario_order_from_history :
  forall (historical_data : list Transaction) (start_date : Timestamp)
         (opening : Q) (d0 : Timestamp),
    amounts_in_range historical_data ->
    timestamps_in_range historical_data start_date ->
    revenue_positive historical_data ->
    input_amounts historical_data "Revenue" (fun _ => true) <> [] ->
    nonneg_expenses (init historical_data) ->
    min_date (map t_date historical_data) = Some d0 ->
    d0 <= start_date ->
    scenario_ordered (init historical_data) start_date opening.
Proof.
  intros data start ob d0 _ _ Hp Hne Hexp Hmin Hle.
  apply scenario_order_general; [apply nonneg_expenses_levels; exact Hexp|].
  unfold positive_estimates. apply Forall_forall. intros [i w] Hin.
  apply In_nth_error in Hin. destruct Hin as [n Hn].
  unfold enumerate in Hn. rewrite enumerate_from_nth in Hn.
  destruct (nth_error (date_range start 13) n) as [w'|] eqn:E; [|discriminate].
  simpl in Hn. injection Hn as <- <-.
  apply generate_range_nth in E.
  destruct (rollforward_monday_spec start) as (d & Hd & Hroll & _).
  rewrite Hroll in E.
  assert (Hlag : forall lag, (lag <= n)%nat ->
                             d0 <= w' - timedelta_weeks (Z.of_nat lag)).
  { intros lag Hl. rewrite E.
    unfold timedelta_weeks, timedelta_days, NS_PER_DAY. lia. }
  cbn [fst snd]. split.
  - eapply forecast_revenue_pos; try eassumption.
    specialize (Hlag 0%nat ltac:(lia)).
    unfold timedelta_weeks, timedelta_days in Hlag. simpl in Hlag. lia.
  - eapply forecast_ar_collections_pos; try eassumption.
    intros lag H1 _. apply Hlag. exact H1.
Qed.

Lemma scenario_order_from_history_witness :
  amounts_in_range mixed_history /\
  timestamps_in_range mixed_history (midnight 19800) /\
  revenue_positive mixed_history /\
  input_amounts mixed_history "Revenue" (fun _ => true) <> [] /\
  nonneg_expenses (init mixed_history) /\
  min_date (map t_date mixed_history) = Some monday_2024_01_01 /\
  monday_2024_01_01 <= midnight 19800 /\
  scenario_ordered (init mixed_history) (midnight 19800) 500000.
Proof.
  assert (H1 : revenue_positive mixed_history)
    by (vm_compute; repeat constructor).
  assert (H2 : input_amounts mixed_history "Revenue" (fun _ => true) <> [])
    by (vm_compute; discriminate).
  assert (H3 : nonneg_expenses (init mixed_history))
    by (split; vm_compute; repeat constructor; discriminate).
  assert (H4 : min_date (map t_date mixed_history) = Some monday_2024_01_01)
    by reflexivity.
  assert (H5 : monday_2024_01_01 <= midnight 19800) by (vm_compute; discriminate).
  split; [exact mixed_history_amounts|]. split; [exact mixed_history_timestamps|].
  split; [exact H1|]. split; [exact H2|]. split; [exact H3|].
  split; [exact H4|]. split; [exact H5|].
  exact (scenario_order_from_history mixed_history (midnight 19800) 500000
           monday_2024_01_01 mixed_history_amounts mixed_history_timestamps
           H1 H2 H3 H4 H5).
Defined.

(* ================================================================== *)
(** ** Collections as a weighted average *)

(** X15. From the fifth week of the forecast on, all five lags count and
    their fractions add up to 1: when the revenue estimates of the week and
    of the four weeks before it are numbers between [lo] and [hi], so are
    the AR collections before the scenario multiplier. *)
Theorem ar_collections_weighted_average :
  forall (historical_data : list Transaction) (w : Timestamp) (i : nat)
         (lo hi : Q),
    (4 <= i)%nat ->
    (forall lag, (lag <= 4)%nat ->
       exists q,
         _forecast_revenue (init historical_data)
           (w - timedelta_weeks (Z.of_nat lag)) = Fin q /\
         (lo <= q <= hi)%Q) ->
    exists a,
      _forecast_ar_collections (init historical_data) w i = Fin a /\
      (lo <= a <= hi)%Q.
Proof.
  intros data w i lo hi Hi Hrev.
  unfold _forecast_ar_collections. rewrite init_lag_rates.
  destruct i as [|[|[|[|i]]]]; try lia.
  cbn [map fold_left Nat.leb collection_fraction].
  destruct (Hrev 0%nat ltac:(lia)) as (q0 & -> & H0).
  destruct (Hrev 1%nat ltac:(lia)) as (q1 & -> & H1).
  destruct (Hrev 2%nat ltac:(lia)) as (q2 & -> & H2).
  destruct (Hrev 3%nat ltac:(lia)) as (q3 & -> & H3).
  destruct (Hrev 4%nat ltac:(lia)) as (q4 & -> & H4).
  eexists. split; [reflexivity|]. lra.
Qed.

Lemma ar_collections_weighted_average_witness :
  (4 <= 5)%nat /\
  (forall lag, (lag <= 4)%nat ->
     exists q,
       _forecast_revenue (init sample_history)
         (midnight 19758 - timedelta_weeks (Z.of_nat lag)) = Fin q /\
       (0 <= q <= 101000)%Q) /\
  exists a,
    _forecast_ar_collections (init sample_history) (midnight 19758) 5 = Fin a /\
    (0 <= a <= 101000)%Q.
Proof.
  assert (H1 : (4 <= 5)%nat) by lia.
  assert (H2 : forall lag, (lag <= 4)%nat ->
            exists q,
              _forecast_revenue (init sample_history)
                (midnight 19758 - timedelta_weeks (Z.of_nat lag)) = Fin q /\
              (0 <= q <= 101000)%Q).
  { intros lag Hl.
    destruct lag as [|[|[|[|[|lag]]]]]; try lia;
      (eexists; split; [vm_compute; reflexivity | split; vm_compute; discriminate]). }
  split; [exact H1|]. split; [exact H2|].
  exact (ar_collections_weighted_average sample_history (midnight 19758) 5
           0 101000 H1 H2).
Defined.

(* ================================================================== *)
(** ** Sensitivity on a history with revenue *)

Lemma sensitivity_row_formula (v : string) (e base c : Q) :
  elasticity_of v = e ->
  let r := sensitivity_row v e (Fin base) c in
  let e' := elasticity_of (SensitivityRow.variable r) in
  let c' := SensitivityRow.change r in
  SensitivityRow.ending_balance r =~ Fin (base * (1 + c' * e')) /\
  SensitivityRow.variance_from_base r =~ Fin (base * c' * e') /\
  (c' == 0 -> SensitivityRow.variance_from_base r =~ Fin 0)%Q.
Proof.
  intros He. unfold sensitivity_row.
  cbn [SensitivityRow.variable SensitivityRow.change
       SensitivityRow.ending_balance SensitivityRow.variance_from_base].
  rewrite He.
  unfold nmul, nadd, nsub, lift2, same_num.
  split; [ring|]. split; [ring|].
  intros Hc. rewrite Hc. ring.
Qed.

Lemma sample_balance_in_range : balance_in_range 500000.
Proof. split; vm_compute; discriminate. Defined.



(* ================================================================== *)
(** ** What the forecast does not read *)

Lemma fold_left_ext {A B : Type} (f g : A -> B -> A) (l : list B) :
  (forall a x, f a x = g a x) ->
  forall a, fold_left f l a = fold_left g l a.
Proof.
  intros H. induction l as [|x l IH]; intros a; simpl; [reflexivity|].
  rewrite H. apply IH.
Qed.

Lemma min_date_unique (ds : list Timestamp) (m : Timestamp) :
  In m ds -> Forall (fun d => m <= d) ds -> min_date ds = Some m.
Proof.
  intros Hin Hall.
  destruct (min_date ds) as [m'|] eqn:E.
  - destruct (min_date_least ds m' E) as [Hin' Hall'].
    rewrite Forall_forall in Hall, Hall'.
    specialize (Hall m' Hin'). specialize (Hall' m Hin). f_equal. lia.
  - destruct ds; [contradiction | discriminate].
Qed.

Section ProjectionsAgree.

Variables self self' : CashFlowForecaster.
Hypothesis Hrev : forall w, _forecast_revenue self w = _forecast_revenue self' w.
Hypothesis Hrates : lag_rates self = lag_rates self'.
Hypothesis Hpay : forall w, _forecast_payroll self w = _forecast_payroll self' w.
Hypothesis Hopex : forall w, _forecast_opex self w = _forecast_opex self' w.

Lemma forecast_ar_collections_agree (w : Timestamp) (i : nat) :
  _forecast_ar_collections self w i = _forecast_ar_collections self' w i.
Proof.
  unfold _forecast_ar_collections. rewrite Hrates.
  apply fold_left_ext. intros a [lag rate]. rewrite Hrev. reflexivity.
Qed.

Lemma forecast_loop_agree adj sc (ws : list (nat * Timestamp)) :
  forall b, forecast_loop self adj sc ws b = forecast_loop self' adj sc ws b.
Proof.
  induction ws as [|[i w] ws IH]; intros b; cbn [forecast_loop]; [reflexivity|].
  assert (E : forecast_row self adj sc i w b = forecast_row self' adj sc i w b).
  { unfold forecast_row.
    rewrite Hrev, forecast_ar_collections_agree, Hpay, Hopex. reflexivity. }
  rewrite E, IH. reflexivity.
Qed.

Lemma generate_forecast_agree start ob sc :
  generate_forecast self start ob sc = generate_forecast self' start ob sc.
Proof.
  unfold generate_forecast.
  destruct (dict_get scenario_adjustments sc); [|reflexivity].
  rewrite forecast_loop_agree. reflexivity.
Qed.

End ProjectionsAgree.

Section IgnoredRow.

Variables before after : list Transaction.
Variable t : Transaction.
Hypothesis Hcat : ignored_category (t_category t) = true.
Hypothesis Hdate :
  exists t0, In t0 (before ++ after)%list /\ t_date t0 <= t_date t.

Lemma ignored_row_filter (q : HistRow -> bool) :
  q (hist_row_of t) = false ->
  filter q (historical (init (before ++ t :: after)))
  = filter q (historical (init (before ++ after))).
Proof.
  intros Hq. unfold init. cbn [historical].
  change (fun t0 : Transaction =>
            mkHistRow (t_date t0) (t_category t0) (t_amount t0)
                      (t_payment_terms t0) (to_period_W (t_date t0)))
    with hist_row_of.
  rewrite !map_app, !filter_app. cbn [map filter]. rewrite Hq. reflexivity.
Qed.

Lemma ignored_row_categories :
  (t_category t =? "Revenue")%string = false /\
  (t_category t =? "Payroll")%string = false /\
  isin (t_category t) opex_categories = false.
Proof.
  unfold ignored_category in Hcat. apply negb_true_iff in Hcat.
  apply orb_false_iff in Hcat. destruct Hcat as [H1 H3].
  apply orb_false_iff in H1. destruct H1 as [H1 H2]. auto.
Qed.

Lemma ignored_row_min_date :
  min_date (map date (historical (init (before ++ t :: after))))
  = min_date (map date (historical (init (before ++ after)))).
Proof.
  rewrite !init_dates.
  destruct Hdate as (t0 & Hin0 & Hle).
  destruct (min_date (map t_date (before ++ after))) as [m|] eqn:E.
  - destruct (min_date_least _ _ E) as [Hin Hall].
    rewrite Forall_forall in Hall.
    assert (Hm : m <= t_date t).
    { specialize (Hall (t_date t0) (in_map t_date _ _ Hin0)). lia. }
    apply min_date_unique.
    + rewrite map_app in *. apply in_app_or in Hin.
      apply in_or_app. destruct Hin; [left | right; right]; assumption.
    + apply Forall_forall. intros d Hd.
      rewrite map_app in Hd. apply in_app_or in Hd. cbn [map] in Hd.
      destruct Hd as [Hd | [<- | Hd]]; [| exact Hm |];
        apply Hall; rewrite map_app; apply in_or_app; auto.
  - destruct (before ++ after)%list; [contradiction | discriminate].
Qed.

Lemma ignored_row_forecast start ob sc :
  generate_forecast (init (before ++ t :: after)) start ob sc
  = generate_forecast (init (before ++ after)) start ob sc.
Proof.
  destruct ignored_row_categories as (H1 & H2 & H3).
  apply generate_forecast_agree.
  - intros w. unfold _forecast_revenue, weeks_from_start, amounts_of.
    rewrite ignored_row_min_date.
    rewrite !(ignored_row_filter _) by (cbn; rewrite ?H1; reflexivity).
    reflexivity.
  - rewrite !init_lag_rates. reflexivity.
  - intros w. unfold _forecast_payroll, amounts_of.
    rewrite !(ignored_row_filter _) by (cbn; rewrite ?H2; reflexivity).
    reflexivity.
  - intros w. unfold _forecast_opex.
    rewrite !(ignored_row_filter _) by (cbn; exact H3).
    reflexivity.
Qed.

End IgnoredRow.

(** X17. A historical row whose category is none of Revenue, Payroll and
    the operating expense categories (an AR Collections or a COGS row, for
    one) and whose date is not before the earliest date of the other rows
    changes nothing: with or without it [generate_forecast] returns the
    same result, for every start date, opening balance and scenario. *)
Theorem ignored_rows_do_not_matter :
  forall (before after : list Transaction) (t : Transaction)
         (start_date : Timestamp) (opening : Q) (sc : string),
    ignored_category (t_category t) = true ->
    (exists t0, In t0 (before ++ after)%list /\ t_date t0 <= t_date t) ->
    generate_forecast (init (before ++ t :: after)) start_date opening sc
    = generate_forecast (init (before ++ after)) start_date opening sc.
Proof.
  intros before after t start ob sc Hcat Hdate.
  apply ignored_row_forecast; assumption.
Qed.

Lemma ignored_rows_do_not_matter_witness :
  ignored_category
    (t_category (mkTransaction (midnight 19730) "AR Collections" 70000 "Various"))
  = true /\
  (exists t0, In t0 (sample_history ++ [])%list /\
              t_date t0
              <= t_date (mkTransaction (midnight 19730) "AR Collections" 70000
                           "Various")) /\
  generate_forecast
    (init (sample_history
           ++ mkTransaction (midnight 19730) "AR Collections" 70000 "Various"
              :: []))
    monday_2024_01_01 500000 "base"
  = generate_forecast (init (sample_history ++ [])) monday_2024_01_01 500000 "base".
Proof.
  assert (H1 : ignored_category
                 (t_category (mkTransaction (midnight 19730) "AR Collections"
                                70000 "Various")) = true) by reflexivity.
  assert (H2 : exists t0, In t0 (sample_history ++ [])%list /\
                 t_date t0
                 <= t_date (mkTransaction (midnight 19730) "AR Collections" 70000
                              "Various")).
  { exists (mkTransaction monday_2024_01_01 "Revenue" 100000 "Net 30").
    split; [simpl; auto | vm_compute; discriminate]. }
  split; [exact H1|]. split; [exact H2|].
  exact (ignored_rows_do_not_matter sample_history []
           (mkTransaction (midnight 19730) "AR Collections" 70000 "Various")
           monday_2024_01_01 500000 "base" H1 H2).
Defined.

(* ================================================================== *)
(** ** The order of the historical rows *)

Lemma nsub_same (x x' y y' : num) :
  x =~ x' -> y =~ y' -> (x - y)%num =~ (x' - y')%num.
Proof.
  destruct x, x', y, y'; simpl; auto; try contradiction.
  intros H1 H2; rewrite H1, H2; reflexivity.
Qed.

Lemma ndiv_same (x x' y y' : num) :
  x =~ x' -> y =~ y' -> (x / y)%num =~ (x' / y')%num.
Proof.
  destruct x, x', y, y'; simpl; auto; try contradiction.
  intros H1 H2; rewrite H1, H2; reflexivity.
Qed.

Lemma isna_same (x y : num) : x =~ y -> isna x = isna y.
Proof. destruct x, y; simpl; tauto. Qed.

Lemma sumQ_perm (l l' : list Q) : Permutation l l' -> (sumQ l == sumQ l')%Q.
Proof.
  induction 1 as [| x l l' _ IH | x y l | l l' l'' _ IH1 _ IH2]; simpl.
  - reflexivity.
  - rewrite IH. reflexivity.
  - ring.
  - rewrite IH1. exact IH2.
Qed.

Lemma mean_same (l l' : list Q) :
  List.length l = List.length l' -> (sumQ l == sumQ l')%Q -> mean l =~ mean l'.
Proof.
  intros Hlen Hsum.
  destruct l as [|a l], l' as [|a' l']; try discriminate; [exact I|].
  cbn [mean same_num]. rewrite Hlen, Hsum. reflexivity.
Qed.

Lemma mean_perm (l l' : list Q) : Permutation l l' -> mean l =~ mean l'.
Proof.
  intros H. apply mean_same; [apply Permutation_length | apply sumQ_perm]; exact H.
Qed.

Lemma filter_perm {A : Type} (p : A -> bool) (l l' : list A) :
  Permutation l l' -> Permutation (filter p l) (filter p l').
Proof.
  induction 1 as [| x l l' _ IH | x y l | l l' l'' _ IH1 _ IH2]; simpl.
  - constructor.
  - destruct (p x); [constructor|]; exact IH.
  - destruct (p x), (p y); try apply Permutation_refl.
    constructor.
  - eapply Permutation_trans; eassumption.
Qed.

Lemma nodup_length_perm (l l' : list Z) :
  Permutation l l' ->
  List.length (nodup Z.eq_dec l) = List.length (nodup Z.eq_dec l').
Proof.
  intros H. apply Permutation_length. apply NoDup_Permutation.
  - apply NoDup_nodup.
  - apply NoDup_nodup.
  - intros x. rewrite !nodup_In. split; intros Hx.
    + eapply Permutation_in; eassumption.
    + eapply Permutation_in; [apply Permutation_sym|]; eassumption.
Qed.

Lemma min_date_perm (l l' : list Timestamp) :
  Permutation l l' -> min_date l = min_date l'.
Proof.
  intros H. destruct (min_date l) as [m|] eqn:E.
  - destruct (min_date_least l m E) as [Hin Hall]. symmetry.
    apply min_date_unique.
    + eapply Permutation_in; eassumption.
    + eapply Permutation_Forall; eassumption.
  - destruct l; [|discriminate].
    apply Permutation_nil in H. subst. reflexivity.
Qed.

Section ProjectionsEquiv.

Variables self self' : CashFlowForecaster.
Hypothesis Hrev : forall w, _forecast_revenue self w =~ _forecast_revenue self' w.
Hypothesis Hrates : lag_rates self = lag_rates self'.
Hypothesis Hpay : forall w, _forecast_payroll self w =~ _forecast_payroll self' w.
Hypothesis Hopex : forall w, _forecast_opex self w =~ _forecast_opex self' w.

Lemma forecast_ar_collections_equiv (w : Timestamp) (i : nat) :
  _forecast_ar_collections self w i =~ _forecast_ar_collections self' w i.
Proof.
  unfold _forecast_ar_collections. rewrite Hrates.
  assert (G : forall l a a', a =~ a' ->
            fold_left
              (fun collections (lr : nat * Q) =>
                 let (lag_weeks, rate) := lr in
                 if (lag_weeks <=? i)%nat then
                   (collections
                    + _forecast_revenue self
                        (w - timedelta_weeks (Z.of_nat lag_weeks))%Z * Fin rate)%num
                 else collections) l a
            =~ fold_left
                 (fun collections (lr : nat * Q) =>
                    let (lag_weeks, rate) := lr in
                    if (lag_weeks <=? i)%nat then
                      (collections
                       + _forecast_revenue self'
                           (w - timedelta_weeks (Z.of_nat lag_weeks))%Z * Fin rate)%num
                    else collections) l a').
  { induction l as [|[lag rate] l IH]; intros a a' Ha; simpl; [exact Ha|].
    apply IH. destruct (lag <=? i)%nat; [|exact Ha].
    apply nadd_same; [exact Ha|].
    apply nmul_same; [apply Hrev | apply same_num_refl]. }
  apply G. apply same_num_refl.
Qed.

Lemma forecast_row_equiv adj sc (i : nat) (w : Timestamp) (b b' : num) :
  b =~ b' ->
  row_equiv (forecast_row self adj sc i w b) (forecast_row self' adj sc i w b').
Proof.
  intros Hb. unfold row_equiv, forecast_row.
  cbn [week_number week_start week_end scenario opening_balance revenue
       ar_collections total_inflows cogs payroll operating_expenses
       total_outflows net_cash_flow ending_balance].
  pose proof (Hrev w) as H1.
  pose proof (forecast_ar_collections_equiv w i) as H2.
  pose proof (Hpay w) as H3. pose proof (Hopex w) as H4.
  repeat split;
    repeat (first [ assumption | apply same_num_refl
                  | apply nadd_same | apply nsub_same | apply nmul_same ]).
Qed.

Lemma forecast_loop_equiv adj sc (ws : list (nat * Timestamp)) :
  forall b b', b =~ b' ->
    Forall2 row_equiv (forecast_loop self adj sc ws b)
                      (forecast_loop self' adj sc ws b').
Proof.
  induction ws as [|[i w] ws IH]; intros b b' Hb; cbn [forecast_loop];
    [constructor|].
  pose proof (forecast_row_equiv adj sc i w b b' Hb) as Hrow.
  constructor; [exact Hrow|].
  apply IH. apply Hrow.
Qed.

End ProjectionsEquiv.

Section PermutedHistory.

Variables historical_data historical_data' : list Transaction.
Hypothesis Hperm : Permutation historical_data historical_data'.

Lemma init_historical_perm :
  Permutation (historical (init historical_data))
              (historical (init historical_data')).
Proof. unfold init; cbn [historical]. apply Permutation_map. exact Hperm. Qed.

Lemma filtered_mean_perm (q : HistRow -> bool) :
  mean (map amount (filter q (historical (init historical_data))))
  =~ mean (map amount (filter q (historical (init historical_data')))).
Proof.
  apply mean_perm, Permutation_map, filter_perm, init_historical_perm.
Qed.

Lemma forecast_revenue_perm (w : Timestamp) :
  _forecast_revenue (init historical_data) w
  =~ _forecast_revenue (init historical_data') w.
Proof.
  unfold _forecast_revenue, weeks_from_start, amounts_of.
  rewrite (min_date_perm _ _ (Permutation_map date init_historical_perm)).
  apply nmul_same; [|apply same_num_refl].
  pose proof (filtered_mean_perm
                (fun r => (category r =? "Revenue")%string
                          && (isoweek (date r) =? isoweek w))) as Hm.
  rewrite (isna_same _ _ Hm).
  destruct (isna (mean _)); [|exact Hm].
  apply ndiv_same; [apply filtered_mean_perm | apply same_num_refl].
Qed.

Lemma forecast_payroll_perm (w : Timestamp) :
  _forecast_payroll (init historical_data) w
  =~ _forecast_payroll (init historical_data') w.
Proof.
  unfold _forecast_payroll, amounts_of.
  destruct (isoweek w mod 2 =? 0); [|apply same_num_refl].
  pose proof (filtered_mean_perm (fun r => (category r =? "Payroll")%string)) as Hm.
  rewrite (isna_same _ _ Hm).
  destruct (isna (mean _)); [apply same_num_refl | exact Hm].
Qed.

Lemma forecast_opex_perm (w : Timestamp) :
  _forecast_opex (init historical_data) w
  =~ _forecast_opex (init historical_data') w.
Proof.
  unfold _forecast_opex.
  assert (Hrows : Permutation
                    (filter (fun r => isin (category r) opex_categories)
                            (historical (init historical_data)))
                    (filter (fun r => isin (category r) opex_categories)
                            (historical (init historical_data'))))
    by (apply filter_perm, init_historical_perm).
  set (rows := filter _ (historical (init historical_data))) in *.
  set (rows' := filter _ (historical (init historical_data'))) in *.
  assert (Hm : mean (groupby_week_sum rows) =~ mean (groupby_week_sum rows')).
  { apply mean_same.
    - unfold groupby_week_sum. rewrite !length_map.
      apply nodup_length_perm, Permutation_map, Hrows.
    - rewrite !groupby_week_sum_total.
      apply sumQ_perm, Permutation_map, Hrows. }
  rewrite (isna_same _ _ Hm).
  destruct (isna (mean (groupby_week_sum rows'))); [apply same_num_refl | exact Hm].
Qed.

Lemma forecast_perm adj sc (ws : list (nat * Timestamp)) (b : num) :
  Forall2 row_equiv (forecast_loop (init historical_data) adj sc ws b)
                    (forecast_loop (init historical_data') adj sc ws b).
Proof.
  apply forecast_loop_equiv.
  - apply forecast_revenue_perm.
  - rewrite !init_lag_rates. reflexivity.
  - apply forecast_payroll_perm.
  - apply forecast_opex_perm.
  - apply same_num_refl.
Qed.

End PermutedHistory.


